(** * Tokyo 2026 expense tracker: the settlement engine, the entry
      validator, the append protocol and the refresh cooldown of [app.py].

    The script computes with Python floats. The engine below is written once
    over an interface [PyFloat] of the float operations the script uses, and
    is run on two carriers: [binary64] (the IEEE doubles Python has, through
    Rocq's primitive floats) for every concrete evaluation, and [exact]
    (rationals, no rounding) for the algebraic laws that rounding blurs. *)

From Stdlib Require Import Floats ZArith QArith Qcanon Qcabs Ascii String DecimalString.
From stdpp Require Import gmap strings list numbers.

Local Open Scope string_scope.

(** ** Python strings

    A [str] is modelled by the bytes of its text; [isspace] is decided on the
    ASCII range (tab, line feed, vertical tab, form feed, carriage return,
    the four separators 28..31 and the blank). *)

Module PyStr.

Definition isspace (c : ascii) : bool :=
  let n := nat_of_ascii c in
  ((9 <=? n)%nat && (n <=? 13)%nat) || ((28 <=? n)%nat && (n <=? 32)%nat).

(** [s.lstrip()] *)
Fixpoint lstrip (s : string) : string :=
  match s with
  | String c s' => if isspace c then lstrip s' else s
  | EmptyString => EmptyString
  end.

(** [s.rstrip()]: a character is kept when something that is not a blank
    follows it or it is itself not a blank. *)
Fixpoint rstrip (s : string) : string :=
  match s with
  | EmptyString => EmptyString
  | String c s' =>
      match rstrip s' with
      | EmptyString => if isspace c then EmptyString else String c EmptyString
      | r => String c r
      end
  end.

(** [s.strip()] *)
Definition strip (s : string) : string := rstrip (lstrip s).

(** [s.split(",")]: the pieces between commas, in order; the empty string
    gives the one-element list holding the empty string. *)
Fixpoint split_comma (s : string) : list string :=
  match s with
  | EmptyString => [EmptyString]
  | String c s' =>
      if Ascii.eqb c ","%char then EmptyString :: split_comma s'
      else match split_comma s' with
           | piece :: rest => String c piece :: rest
           | [] => [String c EmptyString]
           end
  end.

(** [sep.join(l)] *)
Fixpoint join (sep : string) (l : list string) : string :=
  match l with
  | [] => EmptyString
  | [x] => x
  | x :: rest => x ++ sep ++ join sep rest
  end.

(** Plain decimal numerals, the text a sheet cell holds for a number:
    blanks around, an optional sign, digits with an optional point, at least
    one digit. The result is the sign, the digits read as one integer and the
    number of digits after the point. Anything else is rejected. *)
Definition digit_of (c : ascii) : option Z :=
  let n := nat_of_ascii c in
  if ((48 <=? n)%nat && (n <=? 57)%nat) then Some (Z.of_nat n - 48)%Z else None.

Fixpoint digits (s : string) (value : Z) (count : nat) : Z * nat * string :=
  match s with
  | String c s' =>
      match digit_of c with
      | Some d => digits s' (10 * value + d)%Z (S count)
      | None => (value, count, s)
      end
  | EmptyString => (value, count, s)
  end.

Definition signed (s : string) : bool * string :=
  match s with
  | String c s' =>
      if Ascii.eqb c "-"%char then (true, s')
      else if Ascii.eqb c "+"%char then (false, s')
      else (false, s)
  | EmptyString => (false, s)
  end.

Definition decimal (s : string) : option (bool * Z * nat) :=
  let '(neg, body) := signed (strip s) in
  let '(ipart, ni, rest) := digits body 0%Z 0%nat in
  match rest with
  | EmptyString => if (ni =? 0)%nat then None else Some (neg, ipart, 0%nat)
  | String c frac =>
      if Ascii.eqb c "."%char then
        let '(all, nf, rest') := digits frac ipart 0%nat in
        match rest' with
        | EmptyString =>
            if (ni + nf =? 0)%nat then None else Some (neg, all, nf)
        | String _ _ => None
        end
      else None
  end.

End PyStr.

(** ** Exceptions and results *)

Inductive exn : Set :=
  | KeyError | IndexError | ValueError | TypeError | ZeroDivisionError
  | OverflowError
  | StoreError.                        (* the sheet could not be read or written *)

Inductive result (A : Type) : Type :=
  | Ok (a : A)
  | Raise (e : exn).
Arguments Ok {A} a.
Arguments Raise {A} e.

#[global] Instance result_ret : MRet result := fun A a => Ok a.
#[global] Instance result_bind : MBind result :=
  fun A B k r => match r with
                 | Ok a => k a
                 | Raise e => Raise e
                 end.

(** ** The float operations the script uses *)

Class PyFloat (F : Type) : Type := {
  of_Z : Z -> F;                       (* an int literal or [len] used as a float *)
  fadd : F -> F -> F;
  fsub : F -> F -> F;
  fmul : F -> F -> F;
  fdiv : F -> F -> F;                  (* the quotient when the divisor is not 0 *)
  fabs : F -> F;
  fltb : F -> F -> bool;               (* [x < y] *)
  fleb : F -> F -> bool;               (* [x <= y] *)
  isnan : F -> bool;
  fnan : option F;                     (* the value of a blank cell, when it has one *)
  float_of_str : string -> option F;   (* [float(s)]; [None] is ValueError *)
  to_int : F -> result Z               (* [int(x)] *)
}.

(** *** IEEE binary64 *)

Module Binary64.

Definition int_to_float (z : Z) : float :=
  SF2Prim (SpecFloat.binary_normalize prec emax z 0 false).

Definition is_nan (x : float) : bool := negb (PrimFloat.eqb x x).

(** [int(x)]: truncation toward zero; NaN and the infinities raise. *)
Definition trunc (x : float) : result Z :=
  match Prim2SF x with
  | S754_zero _ => Ok 0%Z
  | S754_finite s m e =>
      let v := if (0 <=? e)%Z then (Z.pos m * 2 ^ e)%Z
               else (Z.pos m / 2 ^ (- e))%Z in
      Ok (if s then (- v)%Z else v)
  | S754_infinity _ => Raise OverflowError
  | S754_nan => Raise ValueError
  end.

(** [float(s)] on plain decimal numerals: the quotient of the digits by
    the power of ten, one rounding (the nearest double whenever the digits
    fit 53 bits and at most 22 of them follow the point). *)
Definition parse_decimal (s : string) : option float :=
  match PyStr.decimal s with
  | Some (neg, m, k) =>
      let x := PrimFloat.div (int_to_float m) (int_to_float (10 ^ Z.of_nat k)) in
      Some (if neg then PrimFloat.opp x else x)
  | None => None
  end.

Definition instance (parse : string -> option float) : PyFloat float := {|
  of_Z := int_to_float;
  fadd := PrimFloat.add;
  fsub := PrimFloat.sub;
  fmul := PrimFloat.mul;
  fdiv := PrimFloat.div;
  fabs := PrimFloat.abs;
  fltb := PrimFloat.ltb;
  fleb := PrimFloat.leb;
  isnan := is_nan;
  fnan := Some PrimFloat.nan;
  float_of_str := parse;
  to_int := trunc
|}.

End Binary64.

(** *** Exact rationals: the same operations without rounding and without
    NaN (a blank cell has no value there, converting it is an error). *)

Module Exact.

Definition trunc (x : Qc) : result Z :=
  Ok (Z.quot (Qnum (this x)) (Z.pos (Qden (this x)))).

(** [float(s)] on plain decimal numerals, without rounding. *)
Definition parse_decimal (s : string) : option Qc :=
  match PyStr.decimal s with
  | Some (neg, m, k) =>
      let x := (Qc_of_Z m / Qc_of_Z (10 ^ Z.of_nat k))%Qc in
      Some (if neg then (- x)%Qc else x)
  | None => None
  end.

Definition instance (parse : string -> option Qc) : PyFloat Qc := {|
  of_Z := Qc_of_Z;
  fadd := Qcplus;
  fsub := Qcminus;
  fmul := Qcmult;
  fdiv := Qcdiv;
  fabs := Qcabs;
  fltb := fun x y => bool_decide (x < y)%Qc;
  fleb := fun x y => bool_decide (x <= y)%Qc;
  isnan := fun _ => false;
  fnan := None;
  float_of_str := parse;
  to_int := trunc
|}.

End Exact.

(** ** The ledger as the script reads it

    A row of the data frame has the six columns of the sheet. A column the
    frame does not have is [None] ([row['X']] raises KeyError). The Amount
    column holds numbers, text or blanks; the other columns hold text or
    blanks (a blank is pandas' NaN). *)

Inductive num_cell (F : Type) : Type :=
  | Num (x : F)
  | NumText (s : string)
  | NumBlank.
Arguments Num {F} x.
Arguments NumText {F} s.
Arguments NumBlank {F}.

Inductive txt_cell : Set :=
  | Txt (s : string)
  | Blank.

Record row (F : Type) : Type := mk_row {
  Date : option txt_cell;
  Item : option txt_cell;
  Amount : option (num_cell F);
  Currency : option txt_cell;
  Payer : option txt_cell;
  Involved : option txt_cell
}.
Arguments mk_row {F}.
Arguments Date {F} r.
Arguments Item {F} r.
Arguments Amount {F} r.
Arguments Currency {F} r.
Arguments Payer {F} r.
Arguments Involved {F} r.

(** [{"paid": .., "fair_share": ..}] *)
Record stat (F : Type) : Type := mk_stat { paid : F; fair_share : F }.
Arguments mk_stat {F}.
Arguments paid {F} s.
Arguments fair_share {F} s.

(** The two variables the row loop updates: [user_stats] and [total_twd]. *)
Record acc (F : Type) : Type := mk_acc {
  user_stats : gmap string (stat F);
  total_twd : F
}.
Arguments mk_acc {F}.
Arguments user_stats {F} a.
Arguments total_twd {F} a.

(** The settlement suggestion shown under the metrics. *)
Inductive advice : Set :=
  | AllSquare                                    (* "目前帳目完全平衡" *)
  | ShouldPay (debtor creditor : string) (nt : Z). (* debtor 應支付給 creditor： NT$ nt *)

(** One [st.metric]: whose it is, [int(paid)], [int(balance)], and whether
    the delta colour is "normal" ([balance >= 0]) rather than "inverse". *)
Record metric : Set := mk_metric {
  m_user : string;
  m_value : Z;
  m_delta : Z;
  m_normal : bool
}.

(** What TAB 3 shows. *)
Inductive tab3_view : Set :=
  | NoData                                          (* "請先新增資料" *)
  | Summary (metrics : list metric) (suggested : advice) (total : Z).

(** ** A state-and-exception monad for the loop body and the handlers: what
    was written before an exception stays written. *)

Definition M (S A : Type) : Type := S -> S * result A.

Definition ret {S A} (a : A) : M S A := fun s => (s, Ok a).

Definition bind {S A B} (m : M S A) (k : A -> M S B) : M S B :=
  fun s => match m s with
           | (s', Ok a) => k a s'
           | (s', Raise e) => (s', Raise e)
           end.

Definition lift {S A} (r : result A) : M S A := fun s => (s, r).

Definition modify {S} (f : S -> S) : M S unit := fun s => (f s, Ok tt).

Definition gets {S A} (f : S -> A) : M S A := fun s => (s, Ok (f s)).

(** [for x in l: body x] *)
Fixpoint for_each {S A} (l : list A) (body : A -> M S unit) : M S unit :=
  match l with
  | [] => ret tt
  | x :: rest => bind (body x) (fun _ => for_each rest body)
  end.

(** [try: m  except: continue]: the state [m] leaves, whatever it raised. *)
Definition try_continue {S} (m : M S unit) : S -> S := fun s => fst (m s).

#[global] Instance M_ret S : MRet (M S) := fun A a => ret a.
#[global] Instance M_bind S : MBind (M S) := fun A B k m => bind m k.

(** [r['X']] *)
Definition getitem {A} (c : option A) : result A :=
  match c with
  | Some v => Ok v
  | None => Raise KeyError
  end.

(** [str(cell)] *)
Definition py_str (c : txt_cell) : string :=
  match c with
  | Txt s => s
  | Blank => "nan"
  end.

(** [cell == 'JPY'] *)
Definition is_jpy (c : txt_cell) : bool :=
  match c with
  | Txt s => bool_decide (s = "JPY")
  | Blank => false
  end.

(** ** TAB 3: summary and settlement *)

Section Settlement.
Context {F : Type} {PF : PyFloat F}.

(** [USERS] and [EXCHANGE_RATE]; the literal 0.2075 is the double nearest
    to 2075/10000. *)
Definition USERS : list string := ["Christen"; "Bill"].
Definition EXCHANGE_RATE : F := fdiv (of_Z 2075) (of_Z 10000).

(** [float(cell)] *)
Definition py_float (c : num_cell F) : result F :=
  match c with
  | Num x => Ok x
  | NumText s =>
      match float_of_str s with
      | Some x => Ok x
      | None => Raise ValueError
      end
  | NumBlank =>
      match fnan with
      | Some x => Ok x
      | None => Raise TypeError
      end
  end.

(** [x / n] for a float [x] and an int [n] *)
Definition py_div (x : F) (n : nat) : result F :=
  match n with
  | O => Raise ZeroDivisionError
  | S _ => Ok (fdiv x (of_Z (Z.of_nat n)))
  end.

(** [{u: {"paid": 0.0, "fair_share": 0.0} for u in users}] *)
Definition init_stats (users : list string) : gmap string (stat F) :=
  fold_left (fun m u => <[u := mk_stat (of_Z 0) (of_Z 0)]> m) users ∅.

Definition init_acc (users : list string) : acc F :=
  mk_acc (init_stats users) (of_Z 0).

(** [total_twd += x] *)
Definition add_total (x : F) (a : acc F) : acc F :=
  mk_acc (user_stats a) (fadd (total_twd a) x).

(** [if name in user_stats: user_stats[name]["paid"] += x] *)
Definition credit_paid (name : string) (x : F) (a : acc F) : acc F :=
  match user_stats a !! name with
  | Some st =>
      mk_acc (<[name := mk_stat (fadd (paid st) x) (fair_share st)]> (user_stats a))
             (total_twd a)
  | None => a
  end.

(** [if person in user_stats: user_stats[person]["fair_share"] += share] *)
Definition charge_share (person : string) (share : F) (a : acc F) : acc F :=
  match user_stats a !! person with
  | Some st =>
      mk_acc (<[person := mk_stat (paid st) (fadd (fair_share st) share)]> (user_stats a))
             (total_twd a)
  | None => a
  end.

(** [[name.strip() for name in str(cell).split(",")]] *)
Definition inv_list (c : txt_cell) : list string :=
  map PyStr.strip (PyStr.split_comma (py_str c)).

(** The body of the [try] block, statement by statement. *)
Definition row_body (rate : F) (r : row F) : M (acc F) unit :=
  amount_cell ← lift (getitem (Amount r));
  amt ← lift (py_float amount_cell);
  currency_cell ← lift (getitem (Currency r));
  let amt_twd := if is_jpy currency_cell then fmul amt rate else amt in
  modify (add_total amt_twd) ;;
  payer_cell ← lift (getitem (Payer r));
  let p_name := py_str payer_cell in
  modify (credit_paid p_name amt_twd) ;;
  involved_cell ← lift (getitem (Involved r));
  let names := inv_list involved_cell in
  share ← lift (py_div amt_twd (length names));
  for_each names (fun person => modify (charge_share person share)).

(** [for _, row in df.iterrows(): try: ... except: continue] *)
Definition rows_loop (rate : F) (df : list (row F)) : M (acc F) unit :=
  for_each df (fun r => modify (try_continue (row_body rate r))).

(** [user_stats] and [total_twd] after the loop (lines 133 to 155). *)
Definition settle (users : list string) (rate : F) (df : list (row F)) : acc F :=
  fst (rows_loop rate df (init_acc users)).

(** [user_stats[u]["paid"]], [user_stats[u]["fair_share"]] and
    [user_stats[u]["paid"] - user_stats[u]["fair_share"]] *)
Definition paid_of (a : acc F) (u : string) : result F :=
  match user_stats a !! u with
  | Some st => Ok (paid st)
  | None => Raise KeyError
  end.

Definition fair_share_of (a : acc F) (u : string) : result F :=
  match user_stats a !! u with
  | Some st => Ok (fair_share st)
  | None => Raise KeyError
  end.

Definition balance (a : acc F) (u : string) : result F :=
  match user_stats a !! u with
  | Some st => Ok (fsub (paid st) (fair_share st))
  | None => Raise KeyError
  end.

(** [users[i]] *)
Definition user_at (users : list string) (i : nat) : result string :=
  match users !! i with
  | Some u => Ok u
  | None => Raise IndexError
  end.

(** [diff = user_stats[USERS[0]]["paid"] - user_stats[USERS[0]]["fair_share"]] *)
Definition diff_of (users : list string) (a : acc F) : result F :=
  match user_at users 0 with
  | Ok u => balance a u
  | Raise e => Raise e
  end.

(** The three-way decision on [diff]; the arguments of each message are
    evaluated left to right. *)
Definition advise (users : list string) (diff : F) : result advice :=
  if fltb (fabs diff) (of_Z 1) then Ok AllSquare
  else if fltb (of_Z 0) diff then
    match user_at users 1, user_at users 0, to_int (fabs diff) with
    | Ok debtor, Ok creditor, Ok n => Ok (ShouldPay debtor creditor n)
    | Raise e, _, _ | Ok _, Raise e, _ | Ok _, Ok _, Raise e => Raise e
    end
  else
    match user_at users 0, user_at users 1, to_int (fabs diff) with
    | Ok debtor, Ok creditor, Ok n => Ok (ShouldPay debtor creditor n)
    | Raise e, _, _ | Ok _, Raise e, _ | Ok _, Ok _, Raise e => Raise e
    end.

(** One turn of the metrics loop (lines 159 to 167). *)
Definition show_metric (a : acc F) (u : string) : result metric :=
  match user_stats a !! u with
  | None => Raise KeyError
  | Some st =>
      let balance := fsub (paid st) (fair_share st) in
      let normal := fleb (of_Z 0) balance in
      value ← to_int (paid st);
      delta ← to_int balance;
      mret (mk_metric u value delta normal)
  end.

Fixpoint show_metrics (a : acc F) (users : list string) : result (list metric) :=
  match users with
  | [] => mret []
  | u :: rest =>
      m ← show_metric a u;
      ms ← show_metrics a rest;
      mret (m :: ms)
  end.

(** TAB 3 (lines 132 to 184) on the frame [get_data] returned. *)
Definition tab3 (users : list string) (rate : F) (df : list (row F))
  : result tab3_view :=
  match df with
  | [] => mret NoData
  | _ :: _ =>
      let a := settle users rate df in
      metrics ← show_metrics a users;
      diff ← diff_of users a;
      suggested ← advise users diff;
      total ← to_int (total_twd a);
      mret (Summary metrics suggested total)
  end.

(** The settlement suggestion for a data frame (lines 173 to 180). *)
Definition suggestion (users : list string) (rate : F) (df : list (row F))
  : result advice :=
  match diff_of users (settle users rate df) with
  | Ok d => advise users d
  | Raise e => Raise e
  end.

End Settlement.

(** ** The sheet, the cache and the session

    [sheet] is the remote ledger. [cache] is the memo [@st.cache_data(ttl=30)]
    keeps for [get_data]: the time of the fetch and the frame fetched. The
    three [last_*] fields are the entries of [st.session_state]. *)

Record world (F : Type) : Type := mk_world {
  sheet : list (row F);
  cache : option (F * list (row F));
  last_sync : string;
  last_sync_time : F;
  last_sync_display : string
}.
Arguments mk_world {F}.
Arguments sheet {F} w.
Arguments cache {F} w.
Arguments last_sync {F} w.
Arguments last_sync_time {F} w.
Arguments last_sync_display {F} w.

(** What one run of the script finds outside: the wall clock, read as
    [time.time()] and as [datetime.now().strftime("%H:%M:%S")], and whether
    the sheet answers a read and accepts an overwrite. *)
Record env (F : Type) : Type := mk_env {
  now : F;
  hms : string;
  read_ok : bool;
  update_ok : bool
}.
Arguments mk_env {F}.
Arguments now {F} e.
Arguments hms {F} e.
Arguments read_ok {F} e.
Arguments update_ok {F} e.

(** [datetime.date] and [date.strftime("%Y-%m-%d")] *)
Record date : Set := mk_date { year : nat; month : nat; day : nat }.

Definition decimal_of_nat (n : nat) : string :=
  NilEmpty.string_of_uint (Nat.to_uint n).

Definition zero_pad (width : nat) (s : string) : string :=
  String.concat "" (repeat "0" (width - String.length s)) ++ s.

Definition strftime_ymd (d : date) : string :=
  zero_pad 4 (decimal_of_nat (year d)) ++ "-" ++
  zero_pad 2 (decimal_of_nat (month d)) ++ "-" ++
  zero_pad 2 (decimal_of_nat (day d)).

Inductive currency : Set := TWD | JPY.

Definition currency_text (c : currency) : string :=
  match c with TWD => "TWD" | JPY => "JPY" end.

(** The widgets of the form [add_expense]. *)
Record form (F : Type) : Type := mk_form {
  f_date : date;
  f_item : string;
  f_amount : F;
  f_currency : currency;
  f_payer : string;
  f_involved : list string
}.
Arguments mk_form {F}.
Arguments f_date {F} f.
Arguments f_item {F} f.
Arguments f_amount {F} f.
Arguments f_currency {F} f.
Arguments f_payer {F} f.
Arguments f_involved {F} f.

(** What a handler shows. *)
Inductive shown : Set :=
  | Warning_wait (wait_time : Z)   (* st.warning: wait [wait_time] seconds *)
  | Synced                         (* cache cleared, st.rerun() *)
  | Error_incomplete               (* st.error: fill in item, amount, sharers *)
  | Success (item : string).       (* st.success: recorded [item], st.rerun() *)

Section App.
Context {F : Type} {PF : PyFloat F}.

(** *** [get_data] *)

Definition isna_num (c : num_cell F) : bool :=
  match c with
  | Num x => isnan x
  | NumText _ => false
  | NumBlank => true
  end.

Definition isna_txt (c : txt_cell) : bool :=
  match c with
  | Txt _ => false
  | Blank => true
  end.

(** [df.dropna(subset=['Payer', 'Amount'])] keeps the rows where neither
    cell is blank; it raises KeyError when a column is not there. *)
Definition notna_payer_amount (r : row F) : bool :=
  match Payer r, Amount r with
  | Some p, Some a => negb (isna_txt p) && negb (isna_num a)
  | _, _ => false
  end.

Definition dropna_payer_amount (df : list (row F)) : result (list (row F)) :=
  if forallb (fun r => bool_decide (is_Some (Payer r)) &&
                       bool_decide (is_Some (Amount r))) df
  then Ok (List.filter notna_payer_amount df)
  else Raise KeyError.

(** [df['Payer'] = df['Payer'].astype(str).str.strip()] *)
Definition strip_payer (r : row F) : row F :=
  mk_row (Date r) (Item r) (Amount r) (Currency r)
         (match Payer r with
          | Some c => Some (Txt (PyStr.strip (py_str c)))
          | None => None
          end)
         (Involved r).

(** The body of [get_data] on the frame [conn.read] returned. *)
Definition clean (df : list (row F)) : result (list (row F)) :=
  match df with
  | [] => Ok []
  | _ :: _ =>
      match dropna_payer_amount df with
      | Ok kept => Ok (map strip_payer kept)
      | Raise e => Raise e
      end
  end.

(** Modelled from the spec: the connection to the sheet is a library object;
    a read returns the whole ledger or fails, an overwrite replaces the
    whole ledger or fails and leaves it as it was (sections 4.1 and 5). *)
Definition conn_read (e : env F) : M (world F) (list (row F)) :=
  fun w => (w, if read_ok e then Ok (sheet w) else Raise StoreError).

Definition conn_update (e : env F) (data : list (row F)) : M (world F) unit :=
  fun w =>
    if update_ok e
    then (mk_world data (cache w) (last_sync w) (last_sync_time w)
                   (last_sync_display w), Ok tt)
    else (w, Raise StoreError).

(** The session state a first run of the script sets up (lines 45 to 53). *)
Definition first_run (e : env F) (remote : list (row F)) : world F :=
  mk_world remote None (hms e) (of_Z 0) "尚未同步".

(** [st.cache_data.clear()] *)
Definition cache_clear (w : world F) : world F :=
  mk_world (sheet w) None (last_sync w) (last_sync_time w) (last_sync_display w).

(** Modelled from the spec: [@st.cache_data(ttl=30)] is the framework's memo;
    a snapshot younger than 30 seconds is returned, otherwise the function
    runs and its result is stored with the time of the fetch (section 4.2).
    An exception stores nothing. *)
Definition get_data (e : env F) : M (world F) (list (row F)) :=
  fun w =>
    let fetch :=
      match conn_read e w with
      | (w1, Ok df) =>
          match clean df with
          | Ok v => (mk_world (sheet w1) (Some (now e, v)) (last_sync w1)
                              (last_sync_time w1) (last_sync_display w1), Ok v)
          | Raise x => (w1, Raise x)
          end
      | (w1, Raise x) => (w1, Raise x)
      end in
    match cache w with
    | Some (fetched, v) =>
        if fltb (fsub (now e) fetched) (of_Z 30) then (w, Ok v) else fetch
    | None => fetch
    end.

(** *** The refresh button (lines 56 to 68) *)
Definition refresh (e : env F) : M (world F) shown :=
  let current_time := now e in
  time_since_last ← gets (fun w => fsub current_time (last_sync_time w));
  if fltb time_since_last (of_Z 30) then
    wait_time ← lift (to_int (fsub (of_Z 30) time_since_last));
    mret (Warning_wait wait_time)
  else
    modify cache_clear ;;
    modify (fun w => mk_world (sheet w) (cache w) (last_sync w) current_time
                              (last_sync_display w)) ;;
    modify (fun w => mk_world (sheet w) (cache w) (last_sync w)
                              (last_sync_time w) (hms e)) ;;
    mret Synced.

(** *** The form (lines 88 to 113) *)

(** [not item or amount <= 0 or not involved] *)
Definition incomplete (f : form F) : bool :=
  bool_decide (f_item f = "") || fleb (f_amount f) (of_Z 0) ||
  bool_decide (f_involved f = []).

Definition new_row (f : form F) : row F :=
  mk_row (Some (Txt (strftime_ymd (f_date f))))
         (Some (Txt (f_item f)))
         (Some (Num (f_amount f)))
         (Some (Txt (currency_text (f_currency f))))
         (Some (Txt (f_payer f)))
         (Some (Txt (PyStr.join ", " (f_involved f)))).

(** [pd.concat([a, b], ignore_index=True)]: the rows of [a] then those of
    [b]; a column only one of the frames has is blank in the rows of the
    other. *)
Definition fill {A} (present : bool) (blank : A) (c : option A) : option A :=
  match c with
  | Some v => Some v
  | None => if present then Some blank else None
  end.

Definition pd_concat (a b : list (row F)) : list (row F) :=
  let rows := (a ++ b)%list in
  let has {A} (col : row F -> option A) :=
    existsb (fun r => bool_decide (is_Some (col r))) rows in
  map (fun r => mk_row (fill (has Date) Blank (Date r))
                       (fill (has Item) Blank (Item r))
                       (fill (has Amount) NumBlank (Amount r))
                       (fill (has Currency) Blank (Currency r))
                       (fill (has Payer) Blank (Payer r))
                       (fill (has Involved) Blank (Involved r))) rows.

Definition submit (e : env F) (f : form F) : M (world F) shown :=
  if incomplete f then mret Error_incomplete
  else
    fresh_data ← conn_read e;
    let updated_df := pd_concat fresh_data [new_row f] in
    conn_update e updated_df ;;
    modify cache_clear ;;
    modify (fun w => mk_world (sheet w) (cache w) (hms e) (last_sync_time w)
                              (last_sync_display w)) ;;
    mret (Success (f_item f)).

End App.

(** ** Notions the properties below are stated with *)

Section Notions.
Context {F : Type} {PF : PyFloat F}.

(** The row raises before the first accumulation of the loop body: the
    Amount column is not there, [float] rejects the Amount, or the Currency
    column is not there. *)
Definition unparseable (r : row F) : bool :=
  match Amount r with
  | None => true
  | Some c =>
      match py_float c with
      | Raise _ => true
      | Ok _ => bool_decide (Currency r = None)
      end
  end.

Definition parseable (r : row F) : bool := negb (unparseable r).

(** Every name the row mentions is a key of [user_stats]: the payer and each
    stripped piece of the Involved cell. *)
Definition names_known (users : list string) (r : row F) : bool :=
  match Payer r, Involved r with
  | Some p, Some i =>
      bool_decide (py_str p ∈ users) &&
      forallb (fun name => bool_decide (name ∈ users)) (inv_list i)
  | _, _ => false
  end.

(** The sum of the balances of two participants. *)
Definition balance_sum (a : acc F) (u v : string) : result F :=
  match balance a u, balance a v with
  | Ok x, Ok y => Ok (fadd x y)
  | Raise e, _ | Ok _, Raise e => Raise e
  end.

(** [abs(x) <= 1e-6] *)
Definition within_tolerance (x : F) : bool :=
  fleb (fabs x) (fdiv (of_Z 1) (of_Z 1000000)).

(** The row has the six columns. *)
Definition six_columns (r : row F) : bool :=
  bool_decide (is_Some (Date r)) && bool_decide (is_Some (Item r)) &&
  bool_decide (is_Some (Amount r)) && bool_decide (is_Some (Currency r)) &&
  bool_decide (is_Some (Payer r)) && bool_decide (is_Some (Involved r)).

(** The row with a blank in every column it does not have. *)
Definition fill_blanks (r : row F) : row F :=
  mk_row (fill true Blank (Date r)) (fill true Blank (Item r))
         (fill true NumBlank (Amount r)) (fill true Blank (Currency r))
         (fill true Blank (Payer r)) (fill true Blank (Involved r)).

(** The state and the exception of one pass through the [try] block. *)
Definition row_run (rate : F) (r : row F) (a : acc F) : acc F * result unit :=
  match Amount r with
  | None => (a, Raise KeyError)
  | Some c =>
    match py_float c with
    | Raise e => (a, Raise e)
    | Ok amt =>
      match Currency r with
      | None => (a, Raise KeyError)
      | Some cur =>
        let amt_twd := if is_jpy cur then fmul amt rate else amt in
        let a1 := add_total amt_twd a in
        match Payer r with
        | None => (a1, Raise KeyError)
        | Some p =>
          let a2 := credit_paid (py_str p) amt_twd a1 in
          match Involved r with
          | None => (a2, Raise KeyError)
          | Some i =>
            match py_div amt_twd (length (inv_list i)) with
            | Raise e => (a2, Raise e)
            | Ok share =>
                (fold_left (fun a n => charge_share n share a) (inv_list i) a2,
                 Ok tt)
            end
          end
        end
      end
    end
  end.

(** The loop over the rows as a fold over the state. *)
Definition settle_loop (rate : F) (df : list (row F)) (a : acc F) : acc F :=
  fold_left (fun a r => try_continue (row_body rate r) a) df a.

(** [user_stats] holds these four numbers for the participants [A] and [B]. *)
Definition tallies (A B : string) (a : acc F) (pA fA pB fB : F) : Prop :=
  user_stats a !! A = Some (mk_stat pA fA) /\
  user_stats a !! B = Some (mk_stat pB fB).

(** What was paid and the fair shares add up to the same amount, the
    running total. *)
Definition in_balance (A B : string) (a : acc F) : Prop :=
  exists pA fA pB fB,
    tallies A B a pA fA pB fB /\
    fadd pA pB = fadd fA fB /\ total_twd a = fadd pA pB.

(** The time since the last accepted refresh, as the handler computes it. *)
Definition elapsed (e : env F) (w : world F) : F :=
  fsub (now e) (last_sync_time w).

(** The refresh button pressed once per environment of the list. *)
Definition press_all (es : list (env F)) (w : world F) : world F :=
  fold_left (fun w e => fst (refresh e w)) es w.

End Notions.

(** The fields the validator of the specification names, and those a form
    violates. *)
Inductive field : Set := ItemField | AmountField | InvolvedField.

Definition violated {F} {PF : PyFloat F} (f : form F) : list field :=
  (if bool_decide (f_item f = "") then [ItemField] else []) ++
  (if fleb (f_amount f) (of_Z 0) then [AmountField] else []) ++
  (if bool_decide (f_involved f = []) then [InvolvedField] else []).

(** The two carriers, with plain decimal numerals for [float(text)]. *)
#[global] Instance binary64 : PyFloat float :=
  Binary64.instance Binary64.parse_decimal.
#[global] Instance exact : PyFloat Qc :=
  Exact.instance Exact.parse_decimal.

(** ** Sample ledgers *)

(** A row with the six columns filled in. *)
Definition expense {F} (amount : F) (cur payer involved : string) : row F :=
  mk_row (Some (Txt "2026-01-10")) (Some (Txt "expense"))
         (Some (Num amount)) (Some (Txt cur)) (Some (Txt payer))
         (Some (Txt involved)).

(** 100 TWD paid by someone who is not a participant, split between the two
    participants. *)
Definition guest_ledger : list (row float) :=
  [expense 100%float "TWD" "Zed" "Christen, Bill"].

(** Two rows that name only participants, one of them very large. *)
Definition huge_ledger : list (row float) :=
  [expense 100000000000000000%float "TWD" "Christen" "Christen, Bill";
   expense 5%float "TWD" "Bill" "Christen, Bill"].

(** The scenario of the specification: 1000 JPY paid by A, 500 TWD paid by B,
    both split between A and B. *)
Definition scenario_ledger {F} {PF : PyFloat F} : list (row F) :=
  [expense (of_Z 1000) "JPY" "A" "A, B"; expense (of_Z 500) "TWD" "B" "A, B"].

(** 2 TWD paid by Christen and split between the two: Bill's half is the
    whole of [diff]. *)
Definition unit_ledger : list (row float) :=
  [expense 2%float "TWD" "Christen" "Christen, Bill"].

Definition lunch : row float := expense 100%float "TWD" "Christen" "Christen, Bill".

Definition dinner : row float := expense 1000%float "JPY" "Bill" "Christen, Bill".

(** A row whose Involved cell is blank. *)
Definition taxi_blank_involved : row float :=
  mk_row (Some (Txt "2026-01-11")) (Some (Txt "taxi")) (Some (Num 200%float))
         (Some (Txt "TWD")) (Some (Txt "Bill")) (Some Blank).

(** A row of a frame that has no Involved column. *)
Definition bus_no_involved_column : row float :=
  mk_row (Some (Txt "2026-01-11")) (Some (Txt "bus")) (Some (Num 200%float))
         (Some (Txt "TWD")) (Some (Txt "Bill")) None.

(** A row whose Amount is text that is not a number. *)
Definition garbled_amount : row float :=
  mk_row (Some (Txt "2026-01-11")) (Some (Txt "souvenir")) (Some (NumText "abc"))
         (Some (Txt "TWD")) (Some (Txt "Bill")) (Some (Txt "Christen, Bill")).

Definition ramen_form : form float :=
  mk_form (mk_date 2026 1 12) "ramen" 1200%float JPY "Bill" ["Christen"; "Bill"].

Definition nameless_form : form float :=
  mk_form (mk_date 2026 1 12) "" 1200%float JPY "Bill" ["Christen"; "Bill"].

Definition free_form : form float :=
  mk_form (mk_date 2026 1 12) "ramen" 0%float JPY "Bill" ["Christen"; "Bill"].

(** A session whose last accepted refresh was at time 1000000, with the
    ledger of that moment cached. *)
Definition morning : world float :=
  mk_world [lunch] (Some (1000000%float, [lunch])) "09:00:00" 1000000%float "09:00:00".

Definition at_time (t : float) (can_read can_write : bool) : env float :=
  mk_env t "09:00:05" can_read can_write.

(** Bill's name twice in the Involved cell. *)
Definition bill_twice : row float :=
  expense 90%float "TWD" "Christen" "Bill, Bill, Christen".

(** A row paid by an outsider and split between the participants, and a row
    paid by a participant and split with an outsider. *)
Definition outsider_paid {F} {PF : PyFloat F} : list (row F) :=
  [expense (of_Z 100) "TWD" "Zed" "A, B"].

Definition outsider_involved {F} {PF : PyFloat F} : list (row F) :=
  [expense (of_Z 60) "TWD" "A" "A, Zed"].

(** A very large amount and four small ones, all paid by Christen. *)
Definition large_then_small : list (row float) :=
  [expense 100000000000000000%float "TWD" "Christen" "Christen, Bill";
   expense 5%float "TWD" "Christen" "Christen, Bill";
   expense 5%float "TWD" "Christen" "Christen, Bill";
   expense 5%float "TWD" "Christen" "Christen, Bill";
   expense 5%float "TWD" "Christen" "Christen, Bill"].

(** Two amounts whose sum is beyond the largest double. *)
Definition overflowing_ledger : list (row float) :=
  [expense 0x1p1023%float "TWD" "Christen" "Christen, Bill";
   expense 0x1p1023%float "TWD" "Christen" "Christen, Bill"].

(** ** Notions for the rest of the script *)

(** No comma in the text, and the number of its commas. *)
Fixpoint comma_free (s : string) : bool :=
  match s with
  | EmptyString => true
  | String c s' => negb (Ascii.eqb c ","%char) && comma_free s'
  end.

Fixpoint commas (s : string) : nat :=
  match s with
  | EmptyString => O
  | String c s' => if Ascii.eqb c ","%char then S (commas s') else commas s'
  end.

(** The text does not start with a blank. *)
Definition starts_clean (s : string) : bool :=
  match s with
  | EmptyString => true
  | String c _ => negb (PyStr.isspace c)
  end.

(** A name the form can write and the loop read back unchanged: no comma and
    no blank at either end. *)
Definition plain_name (s : string) : bool :=
  comma_free s && bool_decide (PyStr.strip s = s).

Section MoreNotions.
Context {F : Type} {PF : PyFloat F}.

(** What the widgets of lines 83 and 84 can give: a payer picked from the
    list, and a selection of names of the list; [selected] also asks for a
    selection that is not empty, which the validation does (line 89). *)
Definition selected (users : list string) (f : form F) : bool :=
  bool_decide (f_payer f ∈ users) &&
  negb (bool_decide (f_involved f = [])) &&
  forallb (fun name => bool_decide (name ∈ users)) (f_involved f).

(** The converted amount of a row that reaches [total_twd += amt_twd]. *)
Definition amt_twd_of (rate : F) (r : row F) : option F :=
  match Amount r with
  | None => None
  | Some c =>
      match py_float c with
      | Raise _ => None
      | Ok amt =>
          match Currency r with
          | None => None
          | Some cur => Some (if is_jpy cur then fmul amt rate else amt)
          end
      end
  end.

(** The row has the Payer and the Amount column. *)
Definition has_payer_amount (r : row F) : bool :=
  bool_decide (is_Some (Payer r)) && bool_decide (is_Some (Amount r)).

(** The row is one [get_data] leaves behind: the payer is text without
    blanks around it, the amount is there and is not NaN. *)
Definition cleaned (r : row F) : bool :=
  match Payer r, Amount r with
  | Some (Txt s), Some a => bool_decide (PyStr.strip s = s) && negb (isna_num a)
  | _, _ => false
  end.

(** The payer is a participant; the row has a payer and every Involved name
    is a participant. *)
Definition payer_known (users : list string) (r : row F) : bool :=
  match Payer r with
  | Some p => bool_decide (py_str p ∈ users)
  | None => false
  end.

Definition involved_known (users : list string) (r : row F) : bool :=
  match Payer r, Involved r with
  | Some _, Some i => forallb (fun name => bool_decide (name ∈ users)) (inv_list i)
  | _, _ => false
  end.

(** The fair shares, and what was paid, add up to the running total. *)
Definition shares_match_total (A B : string) (a : acc F) : Prop :=
  exists pA fA pB fB,
    tallies A B a pA fA pB fB /\ total_twd a = fadd fA fB.

Definition paid_matches_total (A B : string) (a : acc F) : Prop :=
  exists pA fA pB fB,
    tallies A B a pA fA pB fB /\ total_twd a = fadd pA pB.

(** The elementary updates the loop body is made of: [total_twd += x], and
    an addition to the two numbers of one key of [user_stats], when the key
    is there. *)
Definition bump (name : string) (dp df : F) (a : acc F) : acc F :=
  match user_stats a !! name with
  | Some st =>
      mk_acc (<[name := mk_stat (fadd (paid st) dp) (fadd (fair_share st) df)]>
                (user_stats a))
             (total_twd a)
  | None => a
  end.

Inductive update : Type :=
  | Total (x : F)
  | Bump (name : string) (dp df : F).

Definition apply_update (a : acc F) (u : update) : acc F :=
  match u with
  | Total x => add_total x a
  | Bump name dp df => bump name dp df a
  end.

(** The updates a row gets to make before the loop body ends or raises. *)
Definition row_updates (rate : F) (r : row F) : list update :=
  match amt_twd_of rate r with
  | None => []
  | Some x =>
      Total x ::
      match Payer r with
      | None => []
      | Some p =>
          Bump (py_str p) x (of_Z 0) ::
          match Involved r with
          | None => []
          | Some i =>
              match py_div x (length (inv_list i)) with
              | Ok share => map (fun n => Bump n (of_Z 0) share) (inv_list i)
              | Raise _ => []
              end
          end
      end
  end.

(** Two sample forms. *)
Definition two_forms : list (form F) :=
  [mk_form (mk_date 2026 1 12) "ramen" (of_Z 1200) JPY "B" ["A"; "B"];
   mk_form (mk_date 2026 1 13) "tea" (of_Z 300) TWD "A" ["A"]].

(** TAB 2 (lines 119 to 128): the frame sorted by index, descending. *)
Inductive tab2_view : Type :=
  | NoRows                                   (* "目前尚無記帳資料" *)
  | Table (rows : list (row F)).

Definition tab2 (df : list (row F)) : tab2_view :=
  match df with
  | [] => NoRows
  | _ :: _ => Table (rev df)
  end.

(** What the user does in one run of the script: press the refresh button or
    submit the form. *)
Inductive event : Type :=
  | Press (e : env F)
  | Submit (e : env F) (f : form F).

Definition step (w : world F) (ev : event) : world F :=
  match ev with
  | Press e => fst (refresh e w)
  | Submit e f => fst (submit e f w)
  end.

Definition run (evs : list event) (w : world F) : world F :=
  fold_left step evs w.

(** The row an event writes, if it writes one. *)
Definition written (ev : event) : list (row F) :=
  match ev with
  | Press _ => []
  | Submit e f =>
      if negb (incomplete f) && read_ok e && update_ok e then [new_row f] else []
  end.

End MoreNotions.

(** A session of four runs: a good form, a press inside the cooldown, a form
    without an item, a good form while the sheet refuses the write. *)
Definition sample_session : list (@event float) :=
  [Submit (at_time 1000010%float true true) ramen_form;
   Press (at_time 1000015%float true true);
   Submit (at_time 1000020%float true true) nameless_form;
   Submit (at_time 1000025%float true false) ramen_form].

(** * Properties *)

(** ** Strings *)

Lemma split_comma_nonempty (s : string) : PyStr.split_comma s <> [].
Proof.
  induction s as [|c s IH]; simpl; [discriminate|].
  destruct (Ascii.eqb c ","); [discriminate|].
  destruct (PyStr.split_comma s); discriminate.
Qed.

Lemma inv_list_length (c : txt_cell) : (1 <= length (inv_list c))%nat.
Proof.
  unfold inv_list. rewrite length_map.
  pose proof (split_comma_nonempty (py_str c)) as H.
  destruct (PyStr.split_comma (py_str c)); [congruence | simpl; lia].
Qed.

(** ** The loop body, run *)

Section Loop.
Context {F : Type} {PF : PyFloat F}.

Lemma for_each_modify {A} (g : A -> acc F -> acc F) (l : list A) (a : acc F) :
  for_each l (fun x => modify (g x)) a = (fold_left (fun a x => g x a) l a, Ok tt).
Proof.
  revert a. induction l as [|x l IH]; intros a; [reflexivity|].
  simpl. unfold bind at 1, modify at 1. apply IH.
Qed.

Lemma rows_loop_run (rate : F) (df : list (row F)) (a : acc F) :
  rows_loop rate df a = (settle_loop rate df a, Ok tt).
Proof. apply (for_each_modify (fun r => try_continue (row_body rate r))). Qed.

Lemma settle_run (users : list string) (rate : F) (df : list (row F)) :
  settle users rate df = settle_loop rate df (init_acc users).
Proof. unfold settle. rewrite rows_loop_run. reflexivity. Qed.

Lemma row_body_run (rate : F) (r : row F) (a : acc F) :
  row_body rate r a = row_run rate r a.
Proof.
  unfold row_body, row_run, mbind, M_bind, bind, lift, getitem.
  destruct (Amount r) as [c|]; [|reflexivity].
  destruct (py_float c) as [amt|]; [|reflexivity].
  destruct (Currency r) as [cur|]; [|reflexivity].
  cbv beta iota zeta. unfold modify at 1.
  destruct (Payer r) as [p|]; [|reflexivity].
  cbv beta iota zeta. unfold modify at 1.
  destruct (Involved r) as [i|]; [|reflexivity].
  destruct (py_div _ _) as [share|]; [|reflexivity].
  apply for_each_modify.
Qed.

End Loop.

(** ** Rows that are skipped, rows that are not *)

Section Skipping.
Context {F : Type} {PF : PyFloat F}.

Lemma unparseable_skipped (rate : F) (r : row F) (a : acc F) :
  unparseable r = true -> try_continue (row_body rate r) a = a.
Proof.
  unfold try_continue, unparseable. rewrite row_body_run. unfold row_run.
  destruct (Amount r) as [c|]; [|reflexivity].
  destruct (py_float c) as [amt|]; [|reflexivity].
  destruct (Currency r) as [cur|]; [|reflexivity].
  intros H. apply bool_decide_eq_true in H. discriminate.
Qed.

Lemma settle_loop_filter (rate : F) (df : list (row F)) (a : acc F) :
  settle_loop rate df a = settle_loop rate (List.filter parseable df) a.
Proof.
  revert a. induction df as [|r df IH]; intros a; [reflexivity|].
  simpl. unfold parseable at 1.
  destruct (unparseable r) eqn:E; simpl.
  - rewrite (unparseable_skipped _ _ _ E). apply IH.
  - apply IH.
Qed.

Lemma blank_involved_counted (rate : F) (r : row F) (a : acc F)
    (c : num_cell F) (amt : F) (cur p : txt_cell) :
  Amount r = Some c -> py_float c = Ok amt -> Currency r = Some cur ->
  Payer r = Some p -> Involved r = Some Blank ->
  let amt_twd := if is_jpy cur then fmul amt rate else amt in
  try_continue (row_body rate r) a =
  charge_share "nan" (fdiv amt_twd (of_Z 1))
               (credit_paid (py_str p) amt_twd (add_total amt_twd a)).
Proof.
  intros Hc Hf Hcur Hp Hi. unfold try_continue. rewrite row_body_run.
  unfold row_run. rewrite Hc, Hf, Hcur, Hp, Hi. reflexivity.
Qed.

(** C3 (as amended): a row that fails before the first accumulation of the
    loop body (the Amount is not a number, or the Amount or Currency column
    is not there) leaves [user_stats] and [total_twd] as they were, and the
    settlement of a ledger is the settlement of the ledger without such
    rows. No exception leaves the loop. A row whose Involved cell is blank
    is not skipped: its amount goes to the total and to its payer, and its
    one share to the name "nan". *)
Theorem C3_unparseable_rows_skipped :
  forall (users : list string) (rate : F) (df : list (row F)),
    (forall r a, unparseable r = true ->
                 try_continue (row_body rate r) a = a) /\
    settle users rate df = settle users rate (List.filter parseable df) /\
    (forall a, snd (rows_loop rate df a) = Ok tt) /\
    (forall r a c amt cur p,
        Amount r = Some c -> py_float c = Ok amt -> Currency r = Some cur ->
        Payer r = Some p -> Involved r = Some Blank ->
        let amt_twd := if is_jpy cur then fmul amt rate else amt in
        try_continue (row_body rate r) a =
        charge_share "nan" (fdiv amt_twd (of_Z 1))
                     (credit_paid (py_str p) amt_twd (add_total amt_twd a))).
Proof.
  intros users rate df. split; [|split; [|split]].
  - intros r a. apply unparseable_skipped.
  - rewrite !settle_run. apply settle_loop_filter.
  - intros a. rewrite rows_loop_run. reflexivity.
  - intros r a c amt cur p. apply blank_involved_counted.
Qed.

Lemma fold_charge_no_raise (rate : F) (r : row F) (a : acc F) :
  snd (row_body rate r a) <> Raise ZeroDivisionError.
Proof.
  rewrite row_body_run. unfold row_run.
  destruct (Amount r) as [c|]; [|discriminate].
  destruct (py_float c) as [amt|e] eqn:Ef.
  2:{ simpl. intros [= ->]. destruct c as [x|t|]; simpl in Ef;
      [discriminate | destruct (float_of_str t); discriminate
      | destruct fnan; discriminate]. }
  destruct (Currency r) as [cur|]; [|discriminate].
  cbv zeta.
  destruct (Payer r) as [p|]; [|discriminate].
  destruct (Involved r) as [i|]; [|discriminate].
  pose proof (inv_list_length i) as Hlen. unfold py_div.
  destruct (length (inv_list i)); [lia | discriminate].
Qed.

(** C8: the list of Involved names is never empty, for any cell, blank and
    empty cells included; so the share division always has a divisor of at
    least 1 and is defined, and no pass through the loop body raises
    ZeroDivisionError. *)
Theorem C8_share_divisor_positive :
  (forall c : txt_cell, (1 <= length (inv_list c))%nat) /\
  (forall (x : F) (c : txt_cell),
      py_div x (length (inv_list c)) =
      Ok (fdiv x (of_Z (Z.of_nat (length (inv_list c)))))) /\
  (forall (rate : F) (r : row F) (a : acc F),
      snd (row_body rate r a) <> Raise ZeroDivisionError).
Proof.
  split; [exact inv_list_length|]. split.
  - intros x c. pose proof (inv_list_length c) as H. unfold py_div.
    destruct (length (inv_list c)); [lia | reflexivity].
  - exact fold_charge_no_raise.
Qed.

End Skipping.

(** ** What the loop does to the tallies of two participants *)

Section Tallies.
Context {F : Type} {PF : PyFloat F}.
Variables A B : string.
Hypothesis distinct : A <> B.

Lemma tallies_init : tallies A B (init_acc [A; B]) (of_Z 0) (of_Z 0) (of_Z 0) (of_Z 0).
Proof.
  unfold tallies, init_acc, init_stats. simpl. split.
  - rewrite lookup_insert_ne by congruence. apply lookup_insert_eq.
  - apply lookup_insert_eq.
Qed.

Lemma tallies_add_total (x : F) (a : acc F) pA fA pB fB :
  tallies A B a pA fA pB fB -> tallies A B (add_total x a) pA fA pB fB.
Proof. intros H. exact H. Qed.

Lemma tallies_credit_A (x : F) (a : acc F) pA fA pB fB :
  tallies A B a pA fA pB fB ->
  tallies A B (credit_paid A x a) (fadd pA x) fA pB fB.
Proof.
  intros [HA HB]. unfold tallies, credit_paid. rewrite HA. simpl. split.
  - apply lookup_insert_eq.
  - rewrite lookup_insert_ne by congruence. exact HB.
Qed.

Lemma tallies_credit_B (x : F) (a : acc F) pA fA pB fB :
  tallies A B a pA fA pB fB ->
  tallies A B (credit_paid B x a) pA fA (fadd pB x) fB.
Proof.
  intros [HA HB]. unfold tallies, credit_paid. rewrite HB. simpl. split.
  - rewrite lookup_insert_ne by congruence. exact HA.
  - apply lookup_insert_eq.
Qed.

Lemma tallies_charge_A (x : F) (a : acc F) pA fA pB fB :
  tallies A B a pA fA pB fB ->
  tallies A B (charge_share A x a) pA (fadd fA x) pB fB.
Proof.
  intros [HA HB]. unfold tallies, charge_share. rewrite HA. simpl. split.
  - apply lookup_insert_eq.
  - rewrite lookup_insert_ne by congruence. exact HB.
Qed.

Lemma tallies_charge_B (x : F) (a : acc F) pA fA pB fB :
  tallies A B a pA fA pB fB ->
  tallies A B (charge_share B x a) pA fA pB (fadd fB x).
Proof.
  intros [HA HB]. unfold tallies, charge_share. rewrite HB. simpl. split.
  - rewrite lookup_insert_ne by congruence. exact HA.
  - apply lookup_insert_eq.
Qed.

Lemma credit_paid_total (n : string) (x : F) (a : acc F) :
  total_twd (credit_paid n x a) = total_twd a.
Proof. unfold credit_paid. destruct (user_stats a !! n); reflexivity. Qed.

Lemma charge_share_total (n : string) (x : F) (a : acc F) :
  total_twd (charge_share n x a) = total_twd a.
Proof. unfold charge_share. destruct (user_stats a !! n); reflexivity. Qed.

Lemma fold_charge_total (share : F) (names : list string) (a : acc F) :
  total_twd (fold_left (fun a n => charge_share n share a) names a) = total_twd a.
Proof.
  revert a. induction names as [|n names IH]; intros a; [reflexivity|].
  simpl. rewrite IH. apply charge_share_total.
Qed.

Lemma known_name (n : string) : bool_decide (n ∈ [A; B]) = true -> n = A \/ n = B.
Proof.
  intros H. apply bool_decide_eq_true in H.
  apply elem_of_cons in H as [H|H]; [left; exact H|].
  apply elem_of_cons in H as [H|H]; [right; exact H|].
  apply elem_of_nil in H. destruct H.
Qed.

End Tallies.

(** ** Conservation, in exact arithmetic *)

Section Conservation.
Variable parse : string -> option Qc.
Variables A B : string.
Hypothesis distinct : A <> B.
Variable rate : Qc.

Local Open Scope Qc_scope.

Lemma fold_charge_sum (share : Qc) (names : list string) :
  forall (a : acc Qc) pA fA pB fB,
    forallb (fun n => bool_decide (n ∈ [A; B])) names = true ->
    tallies A B a pA fA pB fB ->
    exists fA' fB',
      tallies A B
        (fold_left (fun a n => @charge_share Qc (Exact.instance parse) n share a)
                   names a)
        pA fA' pB fB' /\
      fA' + fB' = fA + fB + Qc_of_Z (Z.of_nat (length names)) * share.
Proof.
  induction names as [|n names IH]; intros a pA fA pB fB Hk Ht.
  - exists fA, fB. split; [exact Ht|].
    cbn [length]. change (Z.of_nat 0) with 0%Z. rewrite Z2Qc_inj_0. ring.
  - simpl in Hk. apply andb_prop in Hk as [Hn Hk].
    cbn [fold_left length]. rewrite Nat2Z.inj_succ, <- Z.add_1_r.
    rewrite Z2Qc_inj_add, Z2Qc_inj_1.
    destruct (known_name A B n Hn) as [-> | ->].
    + destruct (IH _ _ _ _ _ Hk (tallies_charge_A A B distinct share a _ _ _ _ Ht))
        as (fA' & fB' & Ht' & Hs).
      exists fA', fB'. split; [exact Ht'|]. rewrite Hs. simpl. ring.
    + destruct (IH _ _ _ _ _ Hk (tallies_charge_B A B distinct share a _ _ _ _ Ht))
        as (fA' & fB' & Ht' & Hs).
      exists fA', fB'. split; [exact Ht'|]. rewrite Hs. simpl. ring.
Qed.

Lemma known_row_keeps_balance (r : row Qc) (a : acc Qc) :
  @unparseable Qc (Exact.instance parse) r || names_known [A; B] r = true ->
  @in_balance Qc (Exact.instance parse) A B a ->
  @in_balance Qc (Exact.instance parse) A B
     (try_continue (@row_body Qc (Exact.instance parse) rate r) a).
Proof.
  intros Hr Ha. destruct (@unparseable Qc (Exact.instance parse) r) eqn:Eu.
  { rewrite (unparseable_skipped _ _ _ Eu). exact Ha. }
  simpl in Hr. unfold try_continue. rewrite row_body_run.
  unfold unparseable in Eu. unfold names_known in Hr. unfold row_run.
  destruct (Amount r) as [c|]; [|discriminate].
  destruct (py_float c) as [amt|]; [|discriminate].
  destruct (Currency r) as [cur|]; [|apply bool_decide_eq_false in Eu; congruence].
  destruct (Payer r) as [p|]; [|discriminate].
  destruct (Involved r) as [i|]; [|discriminate].
  apply andb_prop in Hr as [Hp Hn]. cbv zeta.
  set (x := if is_jpy cur then fmul amt rate else amt).
  pose proof (inv_list_length i) as Hlen. unfold py_div.
  destruct (length (inv_list i)) as [|k] eqn:Ek; [lia|]. rewrite <- Ek. simpl.
  destruct Ha as (pA & fA & pB & fB & Ht & Hsum & Htot).
  simpl in Hsum, Htot.
  assert (Hnz : Qc_of_Z (Z.of_nat (length (inv_list i))) <> 0).
  { rewrite <- Z2Qc_inj_0. intros H. apply Z2Qc_inj in H. lia. }
  apply (tallies_add_total A B x) in Ht.
  destruct (known_name A B _ Hp) as [-> | ->].
  - apply (tallies_credit_A A B distinct x) in Ht.
    destruct (fold_charge_sum (x / Qc_of_Z (Z.of_nat (length (inv_list i))))
                (inv_list i) _ _ _ _ _ Hn Ht) as (fA' & fB' & Ht' & Hs).
    exists (pA + x), fA', pB, fB'. split; [exact Ht'|]. split.
    + simpl. rewrite Hs, <- Hsum. field. exact Hnz.
    + rewrite fold_charge_total, credit_paid_total. simpl. rewrite Htot. ring.
  - apply (tallies_credit_B A B distinct x) in Ht.
    destruct (fold_charge_sum (x / Qc_of_Z (Z.of_nat (length (inv_list i))))
                (inv_list i) _ _ _ _ _ Hn Ht) as (fA' & fB' & Ht' & Hs).
    exists pA, fA', (pB + x), fB'. split; [exact Ht'|]. split.
    + simpl. rewrite Hs, <- Hsum. field. exact Hnz.
    + rewrite fold_charge_total, credit_paid_total. simpl. rewrite Htot. ring.
Qed.

Lemma known_rows_keep_balance (df : list (row Qc)) :
  forall a : acc Qc,
    forallb (fun r => @unparseable Qc (Exact.instance parse) r
                      || names_known [A; B] r) df = true ->
    @in_balance Qc (Exact.instance parse) A B a ->
    @in_balance Qc (Exact.instance parse) A B
       (@settle_loop Qc (Exact.instance parse) rate df a).
Proof.
  induction df as [|r df IH]; intros a Hdf Ha; [exact Ha|].
  simpl in Hdf. apply andb_prop in Hdf as [Hr Hdf].
  simpl. apply IH; [exact Hdf|]. apply known_row_keeps_balance; assumption.
Qed.

End Conservation.

Section ConservationTheorem.
Local Open Scope Qc_scope.

(** C1 (as amended): in exact arithmetic, for two distinct participants and
    any ledger in which every row that is not skipped names only
    participants (as payer and in Involved), the two balances sum to zero,
    which is within the tolerance. *)
Theorem C1_balances_cancel_when_names_known
    (parse : string -> option Qc) (A B : string) (rate : Qc)
    (df : list (row Qc)) :
  A <> B ->
  forallb (fun r => @unparseable Qc (Exact.instance parse) r
                    || names_known [A; B] r) df = true ->
  @balance_sum Qc (Exact.instance parse)
     (@settle Qc (Exact.instance parse) [A; B] rate df) A B = Ok 0 /\
  @within_tolerance Qc (Exact.instance parse) 0 = true.
Proof.
  intros Hne Hdf. split; [|reflexivity].
  destruct (known_rows_keep_balance parse A B Hne rate df
              (@init_acc Qc (Exact.instance parse) [A; B]) Hdf)
    as (pA & fA & pB & fB & [HA HB] & Hsum & _).
  { exists (Qc_of_Z 0), (Qc_of_Z 0), (Qc_of_Z 0), (Qc_of_Z 0).
    split; [apply (@tallies_init Qc (Exact.instance parse)); exact Hne|].
    split; [reflexivity|]. simpl. apply Qc_is_canon. reflexivity. }
  rewrite settle_run. unfold balance_sum, balance. rewrite HA, HB. simpl in *.
  f_equal. replace pA with (fA + fB - pB) by (rewrite <- Hsum; ring). ring.
Qed.

Lemma C1_balances_cancel_witness :
  "A" <> "B" /\
  forallb (fun r => unparseable r || names_known ["A"; "B"] r)
          (@scenario_ledger Qc exact) = true /\
  balance_sum (settle ["A"; "B"] EXCHANGE_RATE scenario_ledger) "A" "B" = Ok 0 /\
  within_tolerance 0 = true.
Proof.
  split; [discriminate|]. split; [reflexivity|].
  apply (C1_balances_cancel_when_names_known Exact.parse_decimal "A" "B");
    [discriminate | reflexivity].
Defined.

End ConservationTheorem.

(** C1 (as stated) fails: a row paid by someone outside [USERS] reaches the
    loop, charges both participants their share and credits nobody; the two
    balances sum to -100. *)
Lemma C1_unknown_payer_breaks_conservation :
  clean guest_ledger = Ok guest_ledger /\
  balance (settle USERS EXCHANGE_RATE guest_ledger) "Christen" = Ok (-50)%float /\
  balance (settle USERS EXCHANGE_RATE guest_ledger) "Bill" = Ok (-50)%float /\
  balance_sum (settle USERS EXCHANGE_RATE guest_ledger) "Christen" "Bill"
    = Ok (-100)%float /\
  within_tolerance (-100)%float = false.
Proof. repeat split; vm_compute; reflexivity. Qed.

(** On doubles the sums round: with an amount of 1e17 next to an amount of 5,
    and only participants named, the balances sum to 8. The law above is one
    of exact arithmetic. *)
Example rounding_exceeds_tolerance :
  forallb (fun r => unparseable r || names_known USERS r) huge_ledger = true /\
  balance_sum (settle USERS EXCHANGE_RATE huge_ledger) "Christen" "Bill"
    = Ok 8%float /\
  within_tolerance 8%float = false.
Proof. repeat split; vm_compute; reflexivity. Qed.

(** ** The threshold *)

Section Threshold.
Variable parse : string -> option float.

Lemma advise_all_square (users : list string) (d : float) :
  @advise float (Binary64.instance parse) users d = Ok AllSquare <->
  PrimFloat.ltb (PrimFloat.abs d) 1 = true.
Proof.
  unfold advise. simpl.
  change (Binary64.int_to_float 1) with 1%float.
  destruct (PrimFloat.ltb (PrimFloat.abs d) 1); [tauto|].
  split; [|discriminate]. intros H. exfalso.
  destruct (PrimFloat.ltb _ d);
    destruct (user_at users 1), (user_at users 0),
      (Binary64.trunc (PrimFloat.abs d)); discriminate.
Qed.

(** C2 (as amended): the decision uses the strict threshold [abs(diff) < 1]:
    the ledger is reported balanced exactly when [abs(diff) < 1], and a
    ledger whose [abs(diff)] is exactly 1 is not reported balanced; a
    transfer of NT$ 1 is suggested, to the first participant when [diff] is
    positive and to the second otherwise. *)
Theorem C2_threshold_is_strict
    (A B : string) (rate : float) (df : list (row float)) (d : float) :
  @diff_of float (Binary64.instance parse) [A; B]
     (@settle float (Binary64.instance parse) [A; B] rate df) = Ok d ->
  (@suggestion float (Binary64.instance parse) [A; B] rate df = Ok AllSquare <->
   PrimFloat.ltb (PrimFloat.abs d) 1 = true) /\
  (PrimFloat.abs d = 1%float ->
   @suggestion float (Binary64.instance parse) [A; B] rate df =
   Ok (if PrimFloat.ltb 0 d then ShouldPay B A 1 else ShouldPay A B 1)).
Proof.
  intros Hd. unfold suggestion. rewrite Hd. split.
  - apply advise_all_square.
  - intros H1. unfold advise. simpl. rewrite H1.
    change (Binary64.int_to_float 1) with 1%float.
    change (Binary64.int_to_float 0) with 0%float.
    change (PrimFloat.ltb 1 1) with false. cbv iota.
    destruct (PrimFloat.ltb 0 d); reflexivity.
Qed.

End Threshold.

Lemma C2_threshold_witness :
  diff_of USERS (settle USERS EXCHANGE_RATE unit_ledger) = Ok 1%float /\
  (suggestion USERS EXCHANGE_RATE unit_ledger = Ok AllSquare <->
   PrimFloat.ltb (PrimFloat.abs 1) 1 = true) /\
  (PrimFloat.abs 1 = 1%float ->
   suggestion USERS EXCHANGE_RATE unit_ledger =
   Ok (if PrimFloat.ltb 0 1 then ShouldPay "Bill" "Christen" 1
       else ShouldPay "Christen" "Bill" 1)).
Proof.
  split; [reflexivity|].
  apply (C2_threshold_is_strict Binary64.parse_decimal "Christen" "Bill").
  reflexivity.
Defined.

(** C2 (as stated) fails: with [diff] exactly 1 the script does not report a
    balanced ledger, it asks Bill to pay Christen NT$ 1. *)
Lemma C2_unit_diff_not_balanced :
  clean unit_ledger = Ok unit_ledger /\
  diff_of USERS (settle USERS EXCHANGE_RATE unit_ledger) = Ok 1%float /\
  fabs 1%float = 1%float /\
  suggestion USERS EXCHANGE_RATE unit_ledger = Ok (ShouldPay "Bill" "Christen" 1) /\
  suggestion USERS EXCHANGE_RATE unit_ledger <> Ok AllSquare.
Proof.
  repeat split; try (vm_compute; reflexivity).
  vm_compute. discriminate.
Qed.

(** ** The scenario of the specification *)

(** C4: with participants A and B and the rate 0.2075, the ledger of the
    scenario gives paid 207.5 and 500, fair share 353.75 each, balances
    -146.25 and 146.25, total 707.5; [diff] is -146.25, so A is to pay B, the
    amount owed is 146.25. The page shows the integer parts. *)
Theorem C4_scenario :
  let s := settle ["A"; "B"] EXCHANGE_RATE (@scenario_ledger float binary64) in
  EXCHANGE_RATE = 0x1.a8f5c28f5c28fp-3%float /\
  paid_of s "A" = Ok 207.5%float /\
  paid_of s "B" = Ok 500%float /\
  fair_share_of s "A" = Ok 353.75%float /\
  fair_share_of s "B" = Ok 353.75%float /\
  balance s "A" = Ok (-146.25)%float /\
  balance s "B" = Ok 146.25%float /\
  total_twd s = 707.5%float /\
  diff_of ["A"; "B"] s = Ok (-146.25)%float /\
  fabs (-146.25)%float = 146.25%float /\
  suggestion ["A"; "B"] EXCHANGE_RATE scenario_ledger = Ok (ShouldPay "A" "B" 146) /\
  tab3 ["A"; "B"] EXCHANGE_RATE scenario_ledger =
  Ok (Summary [mk_metric "A" 207 (-146) false; mk_metric "B" 500 146 true]
              (ShouldPay "A" "B" 146) 707).
Proof. cbv zeta. repeat split; vm_compute; reflexivity. Qed.

(** C3 (as stated) fails: a row whose Involved cell is blank is not skipped.
    It reaches the loop, adds its 200 to the total and to Bill's paid, and
    charges nobody; the totals with it are not the totals without it. *)
Lemma C3_blank_involved_row_counted :
  clean [lunch; taxi_blank_involved] = Ok [lunch; taxi_blank_involved] /\
  Involved taxi_blank_involved = Some Blank /\
  total_twd (settle USERS EXCHANGE_RATE [lunch; taxi_blank_involved]) = 300%float /\
  total_twd (settle USERS EXCHANGE_RATE [lunch]) = 100%float /\
  paid_of (settle USERS EXCHANGE_RATE [lunch; taxi_blank_involved]) "Bill"
    = Ok 200%float /\
  paid_of (settle USERS EXCHANGE_RATE [lunch]) "Bill" = Ok 0%float /\
  settle USERS EXCHANGE_RATE [lunch; taxi_blank_involved]
    <> settle USERS EXCHANGE_RATE [lunch].
Proof.
  repeat split; try (vm_compute; reflexivity).
  intros H. apply (f_equal (fun a => to_int (total_twd a))) in H.
  vm_compute in H. discriminate.
Qed.

Example garbled_amount_skipped :
  settle USERS EXCHANGE_RATE [lunch; garbled_amount; dinner]
  = settle USERS EXCHANGE_RATE [lunch; dinner].
Proof.
  rewrite !settle_run. rewrite settle_loop_filter. reflexivity.
Qed.

(** ** The refresh button *)

Section Refresh.
Context {F : Type} {PF : PyFloat F}.

Lemma refresh_rejected (e : env F) (w : world F) :
  fltb (elapsed e w) (of_Z 30) = true ->
  refresh e w =
  (w, match to_int (fsub (of_Z 30) (elapsed e w)) with
      | Ok wait_time => Ok (Warning_wait wait_time)
      | Raise x => Raise x
      end).
Proof.
  intros H. unfold refresh, mbind, M_bind, bind, gets. fold (elapsed e w).
  rewrite H. unfold lift, mret, M_ret, ret.
  destruct (to_int _); reflexivity.
Qed.

Lemma refresh_accepted (e : env F) (w : world F) :
  fltb (elapsed e w) (of_Z 30) = false ->
  refresh e w =
  (mk_world (sheet w) None (last_sync w) (now e) (hms e), Ok Synced).
Proof.
  intros H. unfold refresh, mbind, M_bind, bind, gets. fold (elapsed e w).
  rewrite H. reflexivity.
Qed.

Lemma press_all_rejected (es : list (env F)) (w : world F) :
  Forall (fun e => fltb (elapsed e w) (of_Z 30) = true) es ->
  press_all es w = w.
Proof.
  induction 1 as [|e es He _ IH]; [reflexivity|].
  unfold press_all in *. simpl. rewrite (refresh_rejected e w He). exact IH.
Qed.

(** C10: a refresh inside the cooldown leaves the whole state as it was, the
    time of the last refresh included; pressing again and again inside the
    cooldown changes nothing, so the wait is never extended; and the time of
    the last refresh changes only when the refresh is accepted, to the time
    of that press. *)
Theorem C10_rejected_refresh_is_a_no_op :
  (forall (e : env F) (w : world F),
      fltb (elapsed e w) (of_Z 30) = true ->
      fst (refresh e w) = w /\ snd (refresh e w) <> Ok Synced) /\
  (forall (es : list (env F)) (w : world F),
      Forall (fun e => fltb (elapsed e w) (of_Z 30) = true) es ->
      press_all es w = w) /\
  (forall (e : env F) (w : world F),
      fst (refresh e w) <> w ->
      snd (refresh e w) = Ok Synced /\
      last_sync_time (fst (refresh e w)) = now e) /\
  (forall (e : env F) (w : world F),
      last_sync_time (fst (refresh e w)) <> last_sync_time w ->
      snd (refresh e w) = Ok Synced).
Proof.
  split; [|split; [|split]].
  - intros e w H. rewrite (refresh_rejected e w H). split; [reflexivity|].
    simpl. destruct (to_int _); discriminate.
  - exact press_all_rejected.
  - intros e w H. destruct (fltb (elapsed e w) (of_Z 30)) eqn:E.
    + rewrite (refresh_rejected e w E) in H. simpl in H. congruence.
    + rewrite (refresh_accepted e w E). split; reflexivity.
  - intros e w H. destruct (fltb (elapsed e w) (of_Z 30)) eqn:E.
    + rewrite (refresh_rejected e w E) in H. simpl in H. congruence.
    + rewrite (refresh_accepted e w E). reflexivity.
Qed.

End Refresh.

Section Cooldown.
Local Open Scope Qc_scope.

Lemma exact_refresh_rejected (parse : string -> option Qc)
    (e : env Qc) (w : world Qc) :
  now e - last_sync_time w < Qc_of_Z 30 ->
  exists n,
    Exact.trunc (Qc_of_Z 30 - (now e - last_sync_time w)) = Ok n /\
    @refresh Qc (Exact.instance parse) e w = (w, Ok (Warning_wait n)).
Proof.
  intros H. eexists. split; [reflexivity|].
  rewrite refresh_rejected; [reflexivity|].
  apply bool_decide_eq_true. exact H.
Qed.

Lemma exact_refresh_accepted (parse : string -> option Qc)
    (e : env Qc) (w : world Qc) :
  ~ now e - last_sync_time w < Qc_of_Z 30 ->
  @refresh Qc (Exact.instance parse) e w =
  (mk_world (sheet w) None (last_sync w) (now e) (hms e), Ok Synced).
Proof.
  intros H. apply refresh_accepted. apply bool_decide_eq_false. exact H.
Qed.

(** C7: a press of the refresh button is rejected, and the whole seconds
    still to wait are shown, exactly when less than 30 seconds have passed
    since the last accepted refresh; otherwise it is accepted. This holds on
    every carrier, with [<] and [int] as the carrier has them, and with the
    clock in exact arithmetic. Of two presses 5 seconds apart, the first
    accepted, the second is rejected with a wait of 25 seconds (exact
    arithmetic, and the doubles of a sample session). *)
Theorem C7_refresh_cooldown :
  (forall (F : Type) (PF : PyFloat F) (e : env F) (w : world F),
      (fltb (elapsed e w) (of_Z 30) = true <->
       refresh e w =
       (w, match to_int (fsub (of_Z 30) (elapsed e w)) with
           | Ok wait_time => Ok (Warning_wait wait_time)
           | Raise x => Raise x
           end)) /\
      (fltb (elapsed e w) (of_Z 30) = false <->
       snd (refresh e w) = Ok Synced)) /\
  (forall (parse : string -> option Qc) (e : env Qc) (w : world Qc),
      now e - last_sync_time w < Qc_of_Z 30 <->
      exists n,
        Exact.trunc (Qc_of_Z 30 - (now e - last_sync_time w)) = Ok n /\
        @refresh Qc (Exact.instance parse) e w = (w, Ok (Warning_wait n))) /\
  (forall (parse : string -> option Qc) (e1 e2 : env Qc) (w : world Qc),
      ~ now e1 - last_sync_time w < Qc_of_Z 30 ->
      now e2 = now e1 + Qc_of_Z 5 ->
      let w1 := fst (@refresh Qc (Exact.instance parse) e1 w) in
      snd (@refresh Qc (Exact.instance parse) e1 w) = Ok Synced /\
      @refresh Qc (Exact.instance parse) e2 w1 = (w1, Ok (Warning_wait 25))) /\
  (let w1 := fst (refresh (at_time 1000031%float true true) morning) in
   snd (refresh (at_time 1000031%float true true) morning) = Ok Synced /\
   refresh (at_time 1000036%float true true) w1 = (w1, Ok (Warning_wait 25))).
Proof.
  split; [|split; [|split]].
  - intros F PF e w. destruct (fltb (elapsed e w) (of_Z 30)) eqn:E.
    + rewrite (refresh_rejected e w E). split; split; try reflexivity.
      * discriminate.
      * simpl. destruct (to_int _); discriminate.
    + rewrite (refresh_accepted e w E). split; split; try reflexivity.
      * discriminate.
      * intros H. apply (f_equal snd) in H. simpl in H.
        destruct (to_int _); discriminate.
  - intros parse e w. split.
    + apply exact_refresh_rejected.
    + intros (n & _ & Hr).
      destruct (decide (now e - last_sync_time w < Qc_of_Z 30)) as [H|H];
        [exact H|].
      rewrite (exact_refresh_accepted parse e w H) in Hr. discriminate.
  - intros parse e1 e2 w H1 H2 w1. subst w1.
    rewrite (exact_refresh_accepted parse e1 w H1). split; [reflexivity|].
    cbn [fst].
    set (w1 := mk_world (sheet w) None (last_sync w) (now e1) (hms e1)).
    assert (Hel : now e2 - last_sync_time w1 = Qc_of_Z 5).
    { subst w1. cbn [last_sync_time]. rewrite H2. ring. }
    destruct (exact_refresh_rejected parse e2 w1) as (n & Hn & Hr).
    { rewrite Hel. apply (proj1 (Z2Qc_inj_lt 5 30)). reflexivity. }
    rewrite Hr. rewrite Hel in Hn.
    change (Ok 25%Z = Ok n) in Hn. congruence.
  - cbv zeta. split; vm_compute; reflexivity.
Qed.

End Cooldown.

(** ** The form: validation and the append *)

Section Submit.
Context {F : Type} {PF : PyFloat F}.

Ltac run_submit :=
  unfold submit, mbind, M_bind, bind, conn_read, conn_update.

Lemma submit_incomplete (e : env F) (f : form F) (w : world F) :
  incomplete f = true -> submit e f w = (w, Ok Error_incomplete).
Proof. intros H. unfold submit. rewrite H. reflexivity. Qed.

Lemma submit_read_fails (e : env F) (f : form F) (w : world F) :
  incomplete f = false -> read_ok e = false ->
  submit e f w = (w, Raise StoreError).
Proof.
  intros H Hr. run_submit. rewrite H, Hr. reflexivity.
Qed.

Lemma submit_write_fails (e : env F) (f : form F) (w : world F) :
  incomplete f = false -> read_ok e = true -> update_ok e = false ->
  submit e f w = (w, Raise StoreError).
Proof.
  intros H Hr Hu. run_submit. rewrite H, Hr, Hu. reflexivity.
Qed.

Lemma submit_written (e : env F) (f : form F) (w : world F) :
  incomplete f = false -> read_ok e = true -> update_ok e = true ->
  submit e f w =
  (mk_world (pd_concat (sheet w) [new_row f]) None (hms e)
            (last_sync_time w) (last_sync_display w),
   Ok (Success (f_item f))).
Proof.
  intros H Hr Hu. run_submit. rewrite H, Hr, Hu. reflexivity.
Qed.

Lemma existsb_with_new_row {A} (col : row F -> option A)
    (a : list (row F)) (f : form F) :
  is_Some (col (new_row f)) ->
  existsb (fun r => bool_decide (is_Some (col r))) (a ++ [new_row f])%list = true.
Proof.
  intros H. rewrite existsb_app. simpl.
  rewrite (bool_decide_eq_true_2 _ H). rewrite orb_true_r. reflexivity.
Qed.

Lemma pd_concat_new_row (a : list (row F)) (f : form F) :
  pd_concat a [new_row f] = (map fill_blanks a ++ [new_row f])%list.
Proof.
  unfold pd_concat.
  rewrite !existsb_with_new_row by (simpl; eauto).
  rewrite map_app. reflexivity.
Qed.

Lemma fill_blanks_six_columns (r : row F) :
  six_columns r = true -> fill_blanks r = r.
Proof.
  unfold six_columns, fill_blanks. intros H.
  repeat (apply andb_prop in H as [H ?]).
  repeat match goal with
         | X : bool_decide (is_Some _) = true |- _ =>
             apply bool_decide_eq_true in X; destruct X as [? X]
         end.
  destruct r; simpl in *; subst; reflexivity.
Qed.

Lemma map_fill_blanks_six_columns (a : list (row F)) :
  forallb six_columns a = true -> map fill_blanks a = a.
Proof.
  induction a as [|r a IH]; [reflexivity|]. simpl. intros H.
  apply andb_prop in H as [Hr Ha].
  rewrite (fill_blanks_six_columns r Hr), (IH Ha). reflexivity.
Qed.

(** C5: a complete form, with the sheet readable and writable: the handler
    reads the sheet itself (not the cache), puts the new row after the rows
    read, overwrites the sheet with the result and clears the cache. A fresh
    read right after returns the earlier rows in their order (a column a row
    did not have is now blank; nothing changes in a row with the six
    columns) followed by the new row as the last one. *)
Theorem C5_append_then_fresh_read
    (e : env F) (f : form F) (w : world F) :
  incomplete f = false -> read_ok e = true -> update_ok e = true ->
  let w' := fst (submit e f w) in
  snd (submit e f w) = Ok (Success (f_item f)) /\
  sheet w' = (map fill_blanks (sheet w) ++ [new_row f])%list /\
  (forallb six_columns (sheet w) = true ->
   sheet w' = (sheet w ++ [new_row f])%list) /\
  cache w' = None /\
  (forall e' : env F, read_ok e' = true ->
     exists df, conn_read e' w' = (w', Ok df) /\
                list.last df = Some (new_row f) /\
                take (length (sheet w)) df = map fill_blanks (sheet w)).
Proof.
  intros H Hr Hu w'. subst w'. rewrite (submit_written e f w H Hr Hu).
  cbn [fst snd sheet cache]. rewrite pd_concat_new_row.
  split; [reflexivity|]. split; [reflexivity|]. split.
  { intros H6. rewrite (map_fill_blanks_six_columns _ H6). reflexivity. }
  split; [reflexivity|].
  intros e' Hr'. eexists. unfold conn_read. rewrite Hr'. cbn [sheet].
  split; [reflexivity|]. split.
  - apply last_snoc.
  - rewrite take_app_length'; [reflexivity|]. rewrite length_map. reflexivity.
Qed.

(** C9: when the overwrite of the sheet fails, the handler stops there: the
    cache is not cleared, nothing else changes, and a cached read gives what
    it gave before. *)
Theorem C9_failed_write_keeps_cache
    (e : env F) (f : form F) (w : world F) :
  incomplete f = false -> read_ok e = true -> update_ok e = false ->
  snd (submit e f w) = Raise StoreError /\
  cache (fst (submit e f w)) = cache w /\
  fst (submit e f w) = w /\
  (forall e' : env F, get_data e' (fst (submit e f w)) = get_data e' w).
Proof.
  intros H Hr Hu. rewrite (submit_write_fails e f w H Hr Hu).
  repeat split; reflexivity.
Qed.

(** C6 (as amended): the form is refused exactly when the item is empty, the
    amount is at most 0 or nobody is involved; the refusal is one fixed
    message, the same whichever field is at fault; nothing is written and the
    state stays as it was. A form that is not refused is written when the
    sheet can be read and overwritten. *)
Theorem C6_validation (e : env F) (f : form F) (w : world F) :
  (incomplete f = true <->
   f_item f = "" \/ fleb (f_amount f) (of_Z 0) = true \/ f_involved f = []) /\
  (incomplete f = true -> submit e f w = (w, Ok Error_incomplete)) /\
  (incomplete f = false -> read_ok e = true -> update_ok e = true ->
   snd (submit e f w) = Ok (Success (f_item f)) /\
   sheet (fst (submit e f w)) = pd_concat (sheet w) [new_row f]).
Proof.
  split; [|split].
  - unfold incomplete. rewrite !orb_true_iff, !bool_decide_eq_true. tauto.
  - apply submit_incomplete.
  - intros H Hr Hu. rewrite (submit_written e f w H Hr Hu). split; reflexivity.
Qed.

End Submit.

Lemma C5_append_witness :
  incomplete ramen_form = false /\
  read_ok (at_time 1000040%float true true) = true /\
  update_ok (at_time 1000040%float true true) = true /\
  let w' := fst (submit (at_time 1000040%float true true) ramen_form morning) in
  snd (submit (at_time 1000040%float true true) ramen_form morning)
    = Ok (Success "ramen") /\
  sheet w' = (map fill_blanks (sheet morning) ++ [new_row ramen_form])%list /\
  (forallb six_columns (sheet morning) = true ->
   sheet w' = (sheet morning ++ [new_row ramen_form])%list) /\
  cache w' = None /\
  (forall e' : env float, read_ok e' = true ->
     exists df, conn_read e' w' = (w', Ok df) /\
                list.last df = Some (new_row ramen_form) /\
                take (length (sheet morning)) df = map fill_blanks (sheet morning)).
Proof.
  split; [reflexivity|]. split; [reflexivity|]. split; [reflexivity|].
  apply (C5_append_then_fresh_read (at_time 1000040%float true true)
           ramen_form morning); reflexivity.
Defined.

Lemma C9_failed_write_witness :
  incomplete ramen_form = false /\
  read_ok (at_time 1000040%float true false) = true /\
  update_ok (at_time 1000040%float true false) = false /\
  snd (submit (at_time 1000040%float true false) ramen_form morning)
    = Raise StoreError /\
  cache (fst (submit (at_time 1000040%float true false) ramen_form morning))
    = cache morning /\
  fst (submit (at_time 1000040%float true false) ramen_form morning) = morning /\
  (forall e' : env float,
     get_data e' (fst (submit (at_time 1000040%float true false) ramen_form morning))
     = get_data e' morning).
Proof.
  split; [reflexivity|]. split; [reflexivity|]. split; [reflexivity|].
  apply (C9_failed_write_keeps_cache (at_time 1000040%float true false)
           ramen_form morning); reflexivity.
Defined.

(** C6 (as stated) fails: a form with no item and a form with a zero amount
    violate different fields and get the same report, so the report does not
    say which field is at fault. *)
Lemma C6_report_names_no_field :
  violated nameless_form = [ItemField] /\
  violated free_form = [AmountField] /\
  snd (submit (at_time 1000040%float true true) nameless_form morning)
    = Ok Error_incomplete /\
  snd (submit (at_time 1000040%float true true) free_form morning)
    = Ok Error_incomplete /\
  ~ (exists fields_named : result shown -> list field,
       forall f : form float,
         incomplete f = true ->
         fields_named (snd (submit (at_time 1000040%float true true) f morning))
         = violated f).
Proof.
  repeat split; try reflexivity.
  intros [fields_named H].
  pose proof (H nameless_form eq_refl) as H1.
  pose proof (H free_form eq_refl) as H2.
  change (fields_named (Ok Error_incomplete) = [ItemField]) in H1.
  change (fields_named (Ok Error_incomplete) = [AmountField]) in H2.
  congruence.
Qed.

(** ** Sample runs *)

Example strip_blanks : PyStr.strip "  Bill " = "Bill".
Proof. reflexivity. Qed.

Example split_names : PyStr.split_comma "Christen, Bill" = ["Christen"; " Bill"].
Proof. reflexivity. Qed.

Example split_empty_text : PyStr.split_comma "" = [""].
Proof. reflexivity. Qed.

Example split_keeps_empty_pieces : PyStr.split_comma "a,,b," = ["a"; ""; "b"; ""].
Proof. reflexivity. Qed.

Example join_names : PyStr.join ", " ["Christen"; "Bill"] = "Christen, Bill".
Proof. reflexivity. Qed.

Example written_names_read_back :
  inv_list (Txt (PyStr.join ", " USERS)) = USERS.
Proof. reflexivity. Qed.

Example blank_involved_is_nan : inv_list Blank = ["nan"].
Proof. reflexivity. Qed.

Example int_truncates_toward_zero :
  Binary64.trunc (-146.25)%float = Ok (-146)%Z /\
  Exact.trunc (Qc_of_Z (-585) / Qc_of_Z 4)%Qc = Ok (-146)%Z.
Proof. split; reflexivity. Qed.

Example int_of_nan_raises : Binary64.trunc PrimFloat.nan = Raise ValueError.
Proof. reflexivity. Qed.

Example decimal_numerals :
  Binary64.parse_decimal " 12.50 " = Some 12.5%float /\
  Binary64.parse_decimal "-.5" = Some (-0.5)%float /\
  Binary64.parse_decimal "abc" = None /\
  Binary64.parse_decimal "." = None /\
  Binary64.parse_decimal "" = None.
Proof. repeat split; reflexivity. Qed.

Example rate_is_the_literal : EXCHANGE_RATE = 0x1.a8f5c28f5c28fp-3%float.
Proof. reflexivity. Qed.

Example strftime_pads : strftime_ymd (mk_date 2026 1 12) = "2026-01-12".
Proof. reflexivity. Qed.

(** Equality of exact results, decided on the fractions. *)
Lemma exact_result_eq (r : result Qc) (x : Qc) :
  match r with
  | Ok y => Qeq_bool (this y) (this x)
  | Raise _ => false
  end = true ->
  r = Ok x.
Proof.
  destruct r as [y|]; [|discriminate]. intros H. f_equal.
  apply Qc_is_canon. apply Qeq_bool_iff. exact H.
Qed.

(** The scenario in exact arithmetic: the same figures. *)
Example scenario_exact :
  let s := settle ["A"; "B"] EXCHANGE_RATE (@scenario_ledger Qc exact) in
  balance s "A" = Ok (Qc_of_Z (-585) / Qc_of_Z 4)%Qc /\
  balance s "B" = Ok (Qc_of_Z 585 / Qc_of_Z 4)%Qc /\
  suggestion ["A"; "B"] EXCHANGE_RATE (@scenario_ledger Qc exact)
    = Ok (ShouldPay "A" "B" 146).
Proof.
  cbv zeta. split; [|split].
  - apply exact_result_eq. vm_compute. reflexivity.
  - apply exact_result_eq. vm_compute. reflexivity.
  - vm_compute. reflexivity.
Qed.

(** A frame without the Involved column: each row has been added to the
    total and to its payer when [row['Involved']] raises. *)
Example missing_column_half_counted :
  row_body EXCHANGE_RATE bus_no_involved_column (init_acc USERS) =
  (settle USERS EXCHANGE_RATE [bus_no_involved_column], Raise KeyError) /\
  total_twd (settle USERS EXCHANGE_RATE [bus_no_involved_column]) = 200%float /\
  paid_of (settle USERS EXCHANGE_RATE [bus_no_involved_column]) "Bill" = Ok 200%float /\
  fair_share_of (settle USERS EXCHANGE_RATE [bus_no_involved_column]) "Bill"
    = Ok 0%float.
Proof. repeat split; vm_compute; reflexivity. Qed.

(** Inside the 30 seconds of the memo the cached frame is returned, also
    after a write that failed. *)
Example cached_read_after_failed_write :
  get_data (at_time 1000020%float true true)
           (fst (submit (at_time 1000010%float true false) ramen_form morning))
  = (morning, Ok [lunch]).
Proof. vm_compute. reflexivity. Qed.

(** After a write that succeeded the next read fetches the sheet, new row
    included. *)
Example read_after_append :
  snd (get_data (at_time 1000020%float true true)
         (fst (submit (at_time 1000010%float true true) ramen_form morning)))
  = Ok [lunch; new_row ramen_form].
Proof. vm_compute. reflexivity. Qed.

(** The first press of a session, at a time of the present epoch. *)
Example first_press_accepted :
  snd (refresh (at_time 1700000000%float true true)
               (first_run (at_time 1700000000%float true true) [lunch]))
  = Ok Synced.
Proof. vm_compute. reflexivity. Qed.

(** Three presses inside the cooldown: the wait shrinks, the state stays. *)
Example presses_inside_cooldown :
  press_all [at_time 1000005%float true true; at_time 1000010%float true true;
             at_time 1000029%float true true] morning = morning /\
  snd (refresh (at_time 1000029%float true true) morning) = Ok (Warning_wait 1).
Proof. split; vm_compute; reflexivity. Qed.

(** * The rest of the script *)

(** ** Stripping and splitting *)

Lemma lstrip_starts_clean (s : string) : starts_clean (PyStr.lstrip s) = true.
Proof.
  induction s as [|c s IH]; [reflexivity|]. simpl.
  destruct (PyStr.isspace c) eqn:E; [exact IH|]. simpl. rewrite E. reflexivity.
Qed.

Lemma lstrip_clean (s : string) : starts_clean s = true -> PyStr.lstrip s = s.
Proof.
  destruct s as [|c s]; [reflexivity|]. simpl. intros H.
  apply negb_true_iff in H. rewrite H. reflexivity.
Qed.

Lemma rstrip_starts_clean (s : string) :
  starts_clean s = true -> starts_clean (PyStr.rstrip s) = true.
Proof.
  destruct s as [|c s]; [reflexivity|]. simpl. intros H.
  destruct (PyStr.rstrip s); [|exact H].
  apply negb_true_iff in H. rewrite H. simpl. rewrite H. reflexivity.
Qed.

Lemma rstrip_idem (s : string) : PyStr.rstrip (PyStr.rstrip s) = PyStr.rstrip s.
Proof.
  induction s as [|c s IH]; [reflexivity|]. simpl.
  destruct (PyStr.rstrip s) as [|d r] eqn:E.
  - destruct (PyStr.isspace c) eqn:Ec; [reflexivity|]. simpl. rewrite Ec. reflexivity.
  - change (PyStr.rstrip (String c (String d r)))
      with (match PyStr.rstrip (String d r) with
            | EmptyString =>
                if PyStr.isspace c then EmptyString else String c EmptyString
            | String _ _ as t => String c t
            end).
    rewrite IH. reflexivity.
Qed.

Lemma strip_idem (s : string) : PyStr.strip (PyStr.strip s) = PyStr.strip s.
Proof.
  unfold PyStr.strip.
  rewrite (lstrip_clean (PyStr.rstrip (PyStr.lstrip s))).
  - apply rstrip_idem.
  - apply rstrip_starts_clean, lstrip_starts_clean.
Qed.

Lemma strip_after_blank (s : string) :
  PyStr.strip (String " "%char s) = PyStr.strip s.
Proof. reflexivity. Qed.

Lemma split_comma_length (s : string) :
  length (PyStr.split_comma s) = S (commas s).
Proof.
  induction s as [|c s IH]; [reflexivity|]. simpl.
  destruct (Ascii.eqb c ","); simpl; [rewrite IH; reflexivity|].
  destruct (PyStr.split_comma s) as [|p rest]; simpl in *; [discriminate|exact IH].
Qed.

Lemma split_comma_before (x rest : string) :
  comma_free x = true ->
  PyStr.split_comma (x ++ String ","%char rest) = x :: PyStr.split_comma rest.
Proof.
  induction x as [|c x IH]; intros H.
  - simpl. reflexivity.
  - simpl in H. apply andb_prop in H as [Hc Hx]. apply negb_true_iff in Hc.
    simpl. rewrite Hc. rewrite (IH Hx). reflexivity.
Qed.

Lemma split_comma_free (x : string) :
  comma_free x = true -> PyStr.split_comma x = [x].
Proof.
  induction x as [|c x IH]; intros H; [reflexivity|].
  simpl in H. apply andb_prop in H as [Hc Hx]. apply negb_true_iff in Hc.
  simpl. rewrite Hc, (IH Hx). reflexivity.
Qed.

Lemma split_join (x : string) (rest : list string) :
  forallb comma_free (x :: rest) = true ->
  PyStr.split_comma (PyStr.join ", " (x :: rest)) = x :: map (String " "%char) rest.
Proof.
  revert x. induction rest as [|y rest IH]; intros x H.
  - simpl in *. apply split_comma_free. rewrite andb_true_r in H. exact H.
  - cbn [forallb] in H. apply andb_prop in H as [Hx H].
    change (PyStr.join ", " (x :: y :: rest))
      with (x ++ String ","%char (String " "%char (PyStr.join ", " (y :: rest)))).
    rewrite (split_comma_before _ _ Hx).
    change (PyStr.split_comma (String " "%char (PyStr.join ", " (y :: rest))))
      with (match PyStr.split_comma (PyStr.join ", " (y :: rest)) with
            | piece :: more => String " "%char piece :: more
            | [] => [String " "%char EmptyString]
            end).
    rewrite (IH y H). reflexivity.
Qed.

Lemma inv_list_join (names : list string) :
  names <> [] ->
  forallb plain_name names = true ->
  inv_list (Txt (PyStr.join ", " names)) = names.
Proof.
  intros Hne Hp. destruct names as [|x rest]; [congruence|].
  assert (Hc : forallb comma_free (x :: rest) = true).
  { apply forallb_forall. intros n Hn.
    pose proof (proj1 (forallb_forall _ _) Hp n Hn) as H.
    apply andb_prop in H as [H _]. exact H. }
  assert (Hs : forall n, In n (x :: rest) -> PyStr.strip n = n).
  { intros n Hn. pose proof (proj1 (forallb_forall _ _) Hp n Hn) as H.
    apply andb_prop in H as [_ H]. apply bool_decide_eq_true in H. exact H. }
  unfold inv_list. cbn [py_str]. rewrite (split_join x rest Hc).
  cbn [map]. rewrite (Hs x (or_introl eq_refl)). f_equal.
  rewrite map_map.
  assert (Hrest : forall n, In n rest -> PyStr.strip n = n).
  { intros n Hn. apply Hs. right. exact Hn. }
  clear - Hrest. induction rest as [|y rest IH]; [reflexivity|].
  cbn [map]. rewrite strip_after_blank, (Hrest y (or_introl eq_refl)).
  f_equal. apply IH. intros n Hn. apply Hrest. right. exact Hn.
Qed.


(** X1: the Involved cell the form writes reads back, in the loop, as the
    names that were selected: for a non-empty selection of names without a
    comma and without blanks around them, splitting and stripping
    [", ".join(involved)] gives [involved] again. *)
Theorem X1_involved_round_trip (names : list string) :
  names <> [] ->
  forallb plain_name names = true ->
  inv_list (Txt (PyStr.join ", " names)) = names.
Proof. exact (inv_list_join names). Qed.

Lemma X1_involved_round_trip_witness :
  USERS <> [] /\
  forallb plain_name USERS = true /\
  inv_list (Txt (PyStr.join ", " USERS)) = USERS.
Proof.
  split; [discriminate|]. split; [reflexivity|].
  apply X1_involved_round_trip; [discriminate | reflexivity].
Defined.

(** X5: the divisor of the share is one more than the number of commas in
    the Involved cell, whatever lies between them (empty pieces and repeated
    names count), and every name compared with [user_stats] has no blank at
    either end. *)
Theorem X5_divisor_counts_commas (c : txt_cell) :
  length (inv_list c) = S (commas (py_str c)) /\
  Forall (fun name => PyStr.strip name = name) (inv_list c).
Proof.
  unfold inv_list. split.
  - rewrite length_map. apply split_comma_length.
  - induction (PyStr.split_comma (py_str c)) as [|x l IH]; constructor.
    + apply strip_idem.
    + exact IH.
Qed.

(** ** [get_data]: the cleaning *)

Section Cleaning.
Context {F : Type} {PF : PyFloat F}.

Lemma clean_closed_form (df : list (row F)) :
  clean df =
  if forallb has_payer_amount df
  then Ok (map strip_payer (List.filter notna_payer_amount df))
  else Raise KeyError.
Proof.
  destruct df as [|r df]; [reflexivity|].
  unfold clean, dropna_payer_amount. fold (@has_payer_amount F).
  change (fun r0 : row F => bool_decide (is_Some (Payer r0)) &&
                            bool_decide (is_Some (Amount r0)))
    with (@has_payer_amount F).
  destruct (forallb has_payer_amount (r :: df)); reflexivity.
Qed.

Lemma strip_payer_cleaned (r : row F) :
  notna_payer_amount r = true -> cleaned (strip_payer r) = true.
Proof.
  unfold notna_payer_amount, cleaned, strip_payer. simpl.
  destruct (Payer r) as [p|]; [|discriminate].
  destruct (Amount r) as [a|]; [|discriminate].
  intros H. apply andb_prop in H as [_ Ha]. rewrite Ha.
  rewrite (bool_decide_eq_true_2 _ (strip_idem (py_str p))). reflexivity.
Qed.

Lemma cleaned_fixed (r : row F) :
  cleaned r = true ->
  has_payer_amount r = true /\ notna_payer_amount r = true /\ strip_payer r = r.
Proof.
  unfold cleaned, has_payer_amount, notna_payer_amount, strip_payer.
  destruct r as [d i a c p inv]. simpl.
  destruct p as [[s|]|]; try discriminate.
  destruct a as [a|]; [|discriminate].
  intros H. apply andb_prop in H as [Hs Ha]. apply bool_decide_eq_true in Hs.
  split; [|split].
  - rewrite !bool_decide_eq_true_2 by eauto. reflexivity.
  - simpl. exact Ha.
  - simpl. rewrite Hs. reflexivity.
Qed.

Lemma clean_of_cleaned (df : list (row F)) :
  forallb cleaned df = true -> clean df = Ok df.
Proof.
  intros H. rewrite clean_closed_form.
  assert (Hall : forall r, In r df ->
            has_payer_amount r = true /\ notna_payer_amount r = true /\
            strip_payer r = r).
  { intros r Hr. apply cleaned_fixed. exact (proj1 (forallb_forall _ _) H r Hr). }
  replace (forallb has_payer_amount df) with true.
  2:{ symmetry. apply forallb_forall. intros r Hr. apply (Hall r Hr). }
  f_equal. clear H. induction df as [|r df IH]; [reflexivity|].
  destruct (Hall r (or_introl eq_refl)) as (_ & Hn & Hs).
  simpl. rewrite Hn. simpl. rewrite Hs. f_equal.
  apply IH. intros r' Hr'. apply Hall. right. exact Hr'.
Qed.

Lemma clean_gives_cleaned (df df' : list (row F)) :
  clean df = Ok df' -> forallb cleaned df' = true.
Proof.
  rewrite clean_closed_form.
  destruct (forallb has_payer_amount df); [|discriminate].
  intros [= <-]. apply forallb_forall. intros r Hr.
  apply in_map_iff in Hr as (r0 & <- & Hr0).
  apply filter_In in Hr0 as [_ Hn]. apply strip_payer_cleaned. exact Hn.
Qed.


(** X4: the cleaning is idempotent: cleaning what [get_data] returned gives
    the same frame. *)
Theorem X4_cleaning_idempotent (df df' : list (row F)) :
  clean df = Ok df' -> clean df' = Ok df'.
Proof.
  intros H. apply clean_of_cleaned. exact (clean_gives_cleaned df df' H).
Qed.

Lemma cleaning_outcome (df : list (row F)) :
  (clean df = Raise KeyError <-> forallb has_payer_amount df = false) /\
  (forallb has_payer_amount df = true ->
   clean df = Ok (map strip_payer (List.filter notna_payer_amount df))) /\
  clean (@nil (row F)) = Ok [].
Proof.
  rewrite clean_closed_form.
  destruct (forallb has_payer_amount df); repeat split; try discriminate;
    try reflexivity; intros; discriminate.
Qed.

End Cleaning.

Lemma X4_cleaning_idempotent_witness :
  clean [lunch; garbled_amount] = Ok [lunch; garbled_amount] /\
  clean [lunch; garbled_amount] = Ok [lunch; garbled_amount].
Proof.
  split; [reflexivity|].
  apply (X4_cleaning_idempotent [lunch; garbled_amount]). reflexivity.
Defined.


(** ** The row loop: total, keys, and the effect of one row *)

Section RowLoop.
Context {F : Type} {PF : PyFloat F}.

Lemma row_total (rate : F) (r : row F) (a : acc F) :
  total_twd (try_continue (row_body rate r) a) =
  match amt_twd_of rate r with
  | Some x => fadd (total_twd a) x
  | None => total_twd a
  end.
Proof.
  unfold try_continue, amt_twd_of. rewrite row_body_run. unfold row_run.
  destruct (Amount r) as [c|]; [|reflexivity].
  destruct (py_float c) as [amt|]; [|reflexivity].
  destruct (Currency r) as [cur|]; [|reflexivity]. cbv zeta.
  destruct (Payer r) as [p|]; [|reflexivity].
  destruct (Involved r) as [i|]; [cbn [fst] | cbn [fst]; apply credit_paid_total].
  destruct (py_div _ _) as [share|]; cbn [fst].
  - rewrite fold_charge_total. apply credit_paid_total.
  - apply credit_paid_total.
Qed.

(** X6: the trip total is the sum, in the order of the sheet, of the
    converted amounts of the rows whose Amount converts and that have a
    Currency column; who paid, who is involved, and whether the row raises
    later in the loop body, make no difference, and neither does the list of
    participants. *)
Theorem X6_total_sums_converted_amounts
    (users : list string) (rate : F) (df : list (row F)) :
  total_twd (settle users rate df) =
  fold_left (fun t r => match amt_twd_of rate r with
                        | Some x => fadd t x
                        | None => t
                        end) df (of_Z 0).
Proof.
  rewrite settle_run. change (of_Z 0) with (total_twd (init_acc users)).
  generalize (init_acc users). unfold settle_loop.
  induction df as [|r df IH]; intros a; [reflexivity|].
  cbn [fold_left]. rewrite IH, row_total. reflexivity.
Qed.

Lemma credit_paid_dom (n : string) (x : F) (a : acc F) :
  dom (user_stats (credit_paid n x a)) = dom (user_stats a).
Proof.
  unfold credit_paid. destruct (user_stats a !! n) as [st|] eqn:E; [|reflexivity].
  cbn [user_stats]. rewrite dom_insert_L. apply elem_of_dom_2 in E.
  apply subseteq_union_1_L, singleton_subseteq_l. exact E.
Qed.

Lemma charge_share_dom (n : string) (x : F) (a : acc F) :
  dom (user_stats (charge_share n x a)) = dom (user_stats a).
Proof.
  unfold charge_share. destruct (user_stats a !! n) as [st|] eqn:E; [|reflexivity].
  cbn [user_stats]. rewrite dom_insert_L. apply elem_of_dom_2 in E.
  apply subseteq_union_1_L, singleton_subseteq_l. exact E.
Qed.

Lemma fold_charge_dom (share : F) (names : list string) (a : acc F) :
  dom (user_stats (fold_left (fun a n => charge_share n share a) names a))
  = dom (user_stats a).
Proof.
  revert a. induction names as [|n names IH]; intros a; [reflexivity|].
  cbn [fold_left]. rewrite IH. apply charge_share_dom.
Qed.

Lemma row_dom (rate : F) (r : row F) (a : acc F) :
  dom (user_stats (try_continue (row_body rate r) a)) = dom (user_stats a).
Proof.
  unfold try_continue. rewrite row_body_run. unfold row_run.
  destruct (Amount r) as [c|]; [|reflexivity].
  destruct (py_float c) as [amt|]; [|reflexivity].
  destruct (Currency r) as [cur|]; [|reflexivity]. cbv zeta.
  destruct (Payer r) as [p|]; [|reflexivity].
  destruct (Involved r) as [i|]; [cbn [fst] | cbn [fst]; rewrite credit_paid_dom; reflexivity].
  destruct (py_div _ _) as [share|]; cbn [fst].
  - rewrite fold_charge_dom. rewrite credit_paid_dom; reflexivity.
  - rewrite credit_paid_dom; reflexivity.
Qed.

Lemma settle_loop_dom (rate : F) (df : list (row F)) (a : acc F) :
  dom (user_stats (settle_loop rate df a)) = dom (user_stats a).
Proof.
  revert a. unfold settle_loop. induction df as [|r df IH]; intros a; [reflexivity|].
  cbn [fold_left]. rewrite IH. apply row_dom.
Qed.

Lemma init_stats_dom (users : list string) :
  dom (init_stats users) = (list_to_set users : gset string).
Proof.
  unfold init_stats.
  assert (H : forall (m : gmap string (stat F)),
             dom (fold_left (fun m u => <[u := mk_stat (of_Z 0) (of_Z 0)]> m) users m)
             = (list_to_set users : gset string) ∪ dom m).
  { induction users as [|u users IH]; intros m; simpl.
    - rewrite (left_id_L ∅ (∪)). reflexivity.
    - rewrite IH, dom_insert_L.
      rewrite (assoc_L (∪)), (comm_L (∪) (list_to_set users) {[u]}).
      reflexivity. }
  rewrite H, dom_empty_L. apply (right_id_L ∅ (∪)).
Qed.

(** X7: the loop never adds and never drops a key of [user_stats]: after any
    ledger the keys are the participants. So a participant's balance is
    always there, and a name outside the participants never gets an entry,
    however often the sheet mentions it. *)
Theorem X7_keys_are_the_participants
    (users : list string) (rate : F) (df : list (row F)) :
  dom (user_stats (settle users rate df)) = (list_to_set users : gset string) /\
  (forall u, u ∈ users <->
             exists x, balance (settle users rate df) u = Ok x) /\
  (forall u, u ∉ users ->
             balance (settle users rate df) u = Raise KeyError).
Proof.
  assert (Hdom : dom (user_stats (settle users rate df))
                 = (list_to_set users : gset string)).
  { rewrite settle_run, settle_loop_dom. apply init_stats_dom. }
  split; [exact Hdom|]. split.
  - intros u. unfold balance. split.
    + intros Hu.
      assert (Hin : u ∈ dom (user_stats (settle users rate df))).
      { rewrite Hdom. apply elem_of_list_to_set. exact Hu. }
      apply elem_of_dom in Hin as [st Hst]. rewrite Hst. eauto.
    + intros [x Hx].
      destruct (user_stats (settle users rate df) !! u) as [st|] eqn:E;
        [|discriminate].
      apply elem_of_dom_2 in E. rewrite Hdom in E.
      apply elem_of_list_to_set in E. exact E.
  - intros u Hu. unfold balance.
    destruct (user_stats (settle users rate df) !! u) as [st|] eqn:E;
      [|reflexivity].
    apply elem_of_dom_2 in E. rewrite Hdom in E.
    apply elem_of_list_to_set in E. contradiction.
Qed.

Lemma charge_share_lookup_same (u : string) (x p f : F) (a : acc F) :
  user_stats a !! u = Some (mk_stat p f) ->
  user_stats (charge_share u x a) !! u = Some (mk_stat p (fadd f x)).
Proof.
  intros H. unfold charge_share. rewrite H. cbn [user_stats paid fair_share].
  apply lookup_insert_eq.
Qed.

Lemma charge_share_lookup_other (n u : string) (x : F) (a : acc F) :
  n <> u -> user_stats (charge_share n x a) !! u = user_stats a !! u.
Proof.
  intros H. unfold charge_share. destruct (user_stats a !! n); [|reflexivity].
  cbn [user_stats]. apply lookup_insert_ne. exact H.
Qed.

Lemma credit_paid_lookup_same (u : string) (x p f : F) (a : acc F) :
  user_stats a !! u = Some (mk_stat p f) ->
  user_stats (credit_paid u x a) !! u = Some (mk_stat (fadd p x) f).
Proof.
  intros H. unfold credit_paid. rewrite H. cbn [user_stats paid fair_share].
  apply lookup_insert_eq.
Qed.

Lemma credit_paid_lookup_other (n u : string) (x : F) (a : acc F) :
  n <> u -> user_stats (credit_paid n x a) !! u = user_stats a !! u.
Proof.
  intros H. unfold credit_paid. destruct (user_stats a !! n); [|reflexivity].
  cbn [user_stats]. apply lookup_insert_ne. exact H.
Qed.

Lemma fold_charge_lookup (u : string) (share : F) (names : list string) :
  forall (a : acc F) (p f : F),
    user_stats a !! u = Some (mk_stat p f) ->
    user_stats (fold_left (fun a n => charge_share n share a) names a) !! u =
    Some (mk_stat p (Nat.iter (count_occ string_dec names u)
                              (fun t => fadd t share) f)).
Proof.
  induction names as [|n names IH]; intros a p f H; [exact H|].
  cbn [fold_left count_occ]. destruct (string_dec n u) as [->|Hne].
  - rewrite (IH _ p (fadd f share) (charge_share_lookup_same u share p f a H)).
    rewrite Nat.iter_succ_r. reflexivity.
  - apply IH. rewrite (charge_share_lookup_other n u share a Hne). exact H.
Qed.

(** X8: what one complete row does to one participant: the converted
    amount is added to [paid] when the payer is that participant, and the
    share is added to [fair_share] once for every time the participant's name
    occurs in the Involved cell, so a name written twice is charged twice. *)
Theorem X8_row_effect_on_a_participant
    (rate : F) (r : row F) (a : acc F) (u : string)
    (c : num_cell F) (amt : F) (cur p i : txt_cell) (pd fs : F) :
  Amount r = Some c -> py_float c = Ok amt -> Currency r = Some cur ->
  Payer r = Some p -> Involved r = Some i ->
  user_stats a !! u = Some (mk_stat pd fs) ->
  let amt_twd := if is_jpy cur then fmul amt rate else amt in
  let share := fdiv amt_twd (of_Z (Z.of_nat (length (inv_list i)))) in
  user_stats (try_continue (row_body rate r) a) !! u =
  Some (mk_stat (if bool_decide (py_str p = u) then fadd pd amt_twd else pd)
                (Nat.iter (count_occ string_dec (inv_list i) u)
                          (fun t => fadd t share) fs)).
Proof.
  intros Hc Hf Hcur Hp Hi Hu. cbv zeta.
  unfold try_continue. rewrite row_body_run. unfold row_run.
  rewrite Hc, Hf, Hcur, Hp, Hi. cbv zeta.
  pose proof (inv_list_length i) as Hlen. unfold py_div.
  destruct (length (inv_list i)) as [|k] eqn:Ek; [lia|]. cbn [fst].
  apply fold_charge_lookup.
  destruct (bool_decide (py_str p = u)) eqn:E.
  - apply bool_decide_eq_true in E. rewrite E.
    apply credit_paid_lookup_same. exact Hu.
  - apply bool_decide_eq_false in E.
    rewrite (credit_paid_lookup_other _ _ _ _ E). exact Hu.
Qed.

End RowLoop.

Lemma X8_row_effect_witness :
  Amount bill_twice = Some (Num 90%float) /\
  py_float (Num 90%float) = Ok 90%float /\
  Currency bill_twice = Some (Txt "TWD") /\
  Payer bill_twice = Some (Txt "Christen") /\
  Involved bill_twice = Some (Txt "Bill, Bill, Christen") /\
  user_stats (init_acc USERS) !! "Bill" = Some (mk_stat 0%float 0%float) /\
  user_stats (try_continue (row_body EXCHANGE_RATE bill_twice) (init_acc USERS))
    !! "Bill" = Some (mk_stat 0%float 60%float).
Proof.
  repeat (split; [reflexivity|]).
  exact (X8_row_effect_on_a_participant EXCHANGE_RATE bill_twice
           (init_acc USERS) "Bill" (Num 90%float) 90%float (Txt "TWD")
           (Txt "Christen") (Txt "Bill, Bill, Christen") 0%float 0%float
           eq_refl eq_refl eq_refl eq_refl eq_refl eq_refl).
Defined.

(** ** Sums over two participants, in exact arithmetic *)

Section PartialSums.
Context {F : Type} {PF : PyFloat F}.
Variables A B : string.
Hypothesis distinct : A <> B.

Lemma tallies_credit_any (n : string) (x : F) (a : acc F) pA fA pB fB :
  tallies A B a pA fA pB fB ->
  exists pA' pB', tallies A B (credit_paid n x a) pA' fA pB' fB.
Proof.
  intros Ht. destruct (decide (n = A)) as [->|HA].
  { eexists _, _. apply (tallies_credit_A A B distinct). exact Ht. }
  destruct (decide (n = B)) as [->|HB].
  { eexists _, _. apply (tallies_credit_B A B distinct). exact Ht. }
  exists pA, pB. destruct Ht as [H1 H2]. split.
  - rewrite credit_paid_lookup_other by exact HA. exact H1.
  - rewrite credit_paid_lookup_other by exact HB. exact H2.
Qed.

Lemma tallies_charge_any (n : string) (x : F) (a : acc F) pA fA pB fB :
  tallies A B a pA fA pB fB ->
  exists fA' fB', tallies A B (charge_share n x a) pA fA' pB fB'.
Proof.
  intros Ht. destruct (decide (n = A)) as [->|HA].
  { eexists _, _. apply (tallies_charge_A A B distinct). exact Ht. }
  destruct (decide (n = B)) as [->|HB].
  { eexists _, _. apply (tallies_charge_B A B distinct). exact Ht. }
  exists fA, fB. destruct Ht as [H1 H2]. split.
  - rewrite charge_share_lookup_other by exact HA. exact H1.
  - rewrite charge_share_lookup_other by exact HB. exact H2.
Qed.

Lemma tallies_fold_charge_any (share : F) (names : list string) :
  forall (a : acc F) pA fA pB fB,
    tallies A B a pA fA pB fB ->
    exists fA' fB',
      tallies A B (fold_left (fun a n => charge_share n share a) names a)
              pA fA' pB fB'.
Proof.
  induction names as [|n names IH]; intros a pA fA pB fB Ht.
  - exists fA, fB. exact Ht.
  - cbn [fold_left].
    destruct (tallies_charge_any n share a _ _ _ _ Ht) as (fA1 & fB1 & Ht1).
    exact (IH _ _ _ _ _ Ht1).
Qed.

End PartialSums.

Section ExactSums.
Variable parse : string -> option Qc.
Variables A B : string.
Hypothesis distinct : A <> B.
Variable rate : Qc.
Local Open Scope Qc_scope.

Lemma shares_row (r : row Qc) (a : acc Qc) :
  @unparseable Qc (Exact.instance parse) r || involved_known [A; B] r = true ->
  @shares_match_total Qc (Exact.instance parse) A B a ->
  @shares_match_total Qc (Exact.instance parse) A B
     (try_continue (@row_body Qc (Exact.instance parse) rate r) a).
Proof.
  intros Hr Ha. destruct (@unparseable Qc (Exact.instance parse) r) eqn:Eu.
  { rewrite (unparseable_skipped _ _ _ Eu). exact Ha. }
  simpl in Hr. unfold try_continue. rewrite row_body_run.
  unfold unparseable in Eu. unfold involved_known in Hr. unfold row_run.
  destruct (Amount r) as [c|]; [|discriminate].
  destruct (py_float c) as [amt|]; [|discriminate].
  destruct (Currency r) as [cur|]; [|apply bool_decide_eq_false in Eu; congruence].
  destruct (Payer r) as [p|]; [|discriminate].
  destruct (Involved r) as [i|]; [|discriminate]. cbv zeta.
  set (x := if is_jpy cur then fmul amt rate else amt).
  pose proof (inv_list_length i) as Hlen. unfold py_div.
  destruct (length (inv_list i)) as [|k] eqn:Ek; [lia|]. rewrite <- Ek. simpl.
  destruct Ha as (pA & fA & pB & fB & Ht & Htot). simpl in Htot.
  assert (Hnz : Qc_of_Z (Z.of_nat (length (inv_list i))) <> 0).
  { rewrite <- Z2Qc_inj_0. intros H. apply Z2Qc_inj in H. lia. }
  apply (tallies_add_total A B x) in Ht.
  destruct (tallies_credit_any A B distinct (py_str p) x _ _ _ _ _ Ht)
    as (pA' & pB' & Ht1).
  destruct (fold_charge_sum parse A B distinct
              (x / Qc_of_Z (Z.of_nat (length (inv_list i))))
              (inv_list i) _ _ _ _ _ Hr Ht1) as (fA' & fB' & Ht' & Hs).
  exists pA', fA', pB', fB'. split; [exact Ht'|].
  rewrite fold_charge_total, credit_paid_total. simpl. rewrite Hs, Htot.
  field. exact Hnz.
Qed.

Lemma paid_row (r : row Qc) (a : acc Qc) :
  @unparseable Qc (Exact.instance parse) r || payer_known [A; B] r = true ->
  @paid_matches_total Qc (Exact.instance parse) A B a ->
  @paid_matches_total Qc (Exact.instance parse) A B
     (try_continue (@row_body Qc (Exact.instance parse) rate r) a).
Proof.
  intros Hr Ha. destruct (@unparseable Qc (Exact.instance parse) r) eqn:Eu.
  { rewrite (unparseable_skipped _ _ _ Eu). exact Ha. }
  simpl in Hr. unfold try_continue. rewrite row_body_run.
  unfold unparseable in Eu. unfold payer_known in Hr. unfold row_run.
  destruct (Amount r) as [c|]; [|discriminate].
  destruct (py_float c) as [amt|]; [|discriminate].
  destruct (Currency r) as [cur|]; [|apply bool_decide_eq_false in Eu; congruence].
  destruct (Payer r) as [p|]; [|discriminate]. cbv zeta.
  set (x := if is_jpy cur then fmul amt rate else amt).
  destruct Ha as (pA & fA & pB & fB & Ht & Htot). simpl in Htot.
  apply (tallies_add_total A B x) in Ht.
  assert (Hcred : exists pA' pB',
             tallies A B (credit_paid (py_str p) x (add_total x a)) pA' fA pB' fB /\
             pA' + pB' = pA + pB + x).
  { destruct (known_name A B _ Hr) as [-> | ->].
    - exists (pA + x), pB. split; [exact (tallies_credit_A A B distinct x _ _ _ _ _ Ht)|].
      ring.
    - exists pA, (pB + x). split; [exact (tallies_credit_B A B distinct x _ _ _ _ _ Ht)|].
      ring. }
  destruct Hcred as (pA' & pB' & Ht1 & Hp).
  assert (Htot1 : total_twd (credit_paid (py_str p) x (add_total x a)) = pA' + pB').
  { rewrite credit_paid_total. simpl. rewrite Htot, Hp. reflexivity. }
  destruct (Involved r) as [i|].
  2:{ cbn [fst]. exists pA', fA, pB', fB. split; [exact Ht1 | exact Htot1]. }
  destruct (py_div x (length (inv_list i))) as [share|]; cbn [fst].
  2:{ exists pA', fA, pB', fB. split; [exact Ht1 | exact Htot1]. }
  destruct (tallies_fold_charge_any A B distinct share (inv_list i) _ _ _ _ _ Ht1)
    as (fA' & fB' & Ht2).
  exists pA', fA', pB', fB'. split; [exact Ht2|].
  rewrite fold_charge_total. exact Htot1.
Qed.

Lemma shares_loop (df : list (row Qc)) :
  forall a : acc Qc,
    forallb (fun r => @unparseable Qc (Exact.instance parse) r
                      || involved_known [A; B] r) df = true ->
    @shares_match_total Qc (Exact.instance parse) A B a ->
    @shares_match_total Qc (Exact.instance parse) A B
       (@settle_loop Qc (Exact.instance parse) rate df a).
Proof.
  induction df as [|r df IH]; intros a Hdf Ha; [exact Ha|].
  simpl in Hdf. apply andb_prop in Hdf as [Hr Hdf].
  simpl. apply IH; [exact Hdf|]. apply shares_row; assumption.
Qed.

Lemma paid_loop (df : list (row Qc)) :
  forall a : acc Qc,
    forallb (fun r => @unparseable Qc (Exact.instance parse) r
                      || payer_known [A; B] r) df = true ->
    @paid_matches_total Qc (Exact.instance parse) A B a ->
    @paid_matches_total Qc (Exact.instance parse) A B
       (@settle_loop Qc (Exact.instance parse) rate df a).
Proof.
  induction df as [|r df IH]; intros a Hdf Ha; [exact Ha|].
  simpl in Hdf. apply andb_prop in Hdf as [Hr Hdf].
  simpl. apply IH; [exact Hdf|]. apply paid_row; assumption.
Qed.

End ExactSums.

Section ExactSumTheorems.
Local Open Scope Qc_scope.

(** X9: in exact arithmetic, when every row that is counted has a payer cell
    and names only participants in its Involved cell, the two fair shares add
    up to the trip total, whoever paid, an outsider included. *)
Theorem X9_fair_shares_add_up_to_total
    (parse : string -> option Qc) (A B : string) (rate : Qc)
    (df : list (row Qc)) :
  A <> B ->
  forallb (fun r => @unparseable Qc (Exact.instance parse) r
                    || involved_known [A; B] r) df = true ->
  exists fA fB,
    fair_share_of (@settle Qc (Exact.instance parse) [A; B] rate df) A = Ok fA /\
    fair_share_of (@settle Qc (Exact.instance parse) [A; B] rate df) B = Ok fB /\
    fA + fB = total_twd (@settle Qc (Exact.instance parse) [A; B] rate df).
Proof.
  intros Hne Hdf.
  destruct (shares_loop parse A B Hne rate df
              (@init_acc Qc (Exact.instance parse) [A; B]) Hdf)
    as (pA & fA & pB & fB & [HA HB] & Htot).
  { exists (Qc_of_Z 0), (Qc_of_Z 0), (Qc_of_Z 0), (Qc_of_Z 0).
    split; [apply (@tallies_init Qc (Exact.instance parse)); exact Hne|].
    simpl. apply Qc_is_canon. reflexivity. }
  exists fA, fB. rewrite settle_run. unfold fair_share_of.
  rewrite HA, HB. simpl in *. rewrite Htot. repeat split; reflexivity.
Qed.

Lemma X9_fair_shares_witness :
  "A" <> "B" /\
  forallb (fun r => unparseable r || involved_known ["A"; "B"] r)
          (@outsider_paid Qc exact) = true /\
  exists fA fB,
    fair_share_of (settle ["A"; "B"] EXCHANGE_RATE (@outsider_paid Qc exact)) "A"
      = Ok fA /\
    fair_share_of (settle ["A"; "B"] EXCHANGE_RATE (@outsider_paid Qc exact)) "B"
      = Ok fB /\
    fA + fB = total_twd (settle ["A"; "B"] EXCHANGE_RATE (@outsider_paid Qc exact)).
Proof.
  split; [discriminate|]. split; [reflexivity|].
  apply (X9_fair_shares_add_up_to_total Exact.parse_decimal "A" "B");
    [discriminate | reflexivity].
Defined.

(** X10: in exact arithmetic, when every row that is counted is paid by a
    participant, what the two have paid adds up to the trip total, whatever
    the Involved cells hold and even when the frame has no Involved column. *)
Theorem X10_paid_adds_up_to_total
    (parse : string -> option Qc) (A B : string) (rate : Qc)
    (df : list (row Qc)) :
  A <> B ->
  forallb (fun r => @unparseable Qc (Exact.instance parse) r
                    || payer_known [A; B] r) df = true ->
  exists pA pB,
    paid_of (@settle Qc (Exact.instance parse) [A; B] rate df) A = Ok pA /\
    paid_of (@settle Qc (Exact.instance parse) [A; B] rate df) B = Ok pB /\
    pA + pB = total_twd (@settle Qc (Exact.instance parse) [A; B] rate df).
Proof.
  intros Hne Hdf.
  destruct (paid_loop parse A B Hne rate df
              (@init_acc Qc (Exact.instance parse) [A; B]) Hdf)
    as (pA & fA & pB & fB & [HA HB] & Htot).
  { exists (Qc_of_Z 0), (Qc_of_Z 0), (Qc_of_Z 0), (Qc_of_Z 0).
    split; [apply (@tallies_init Qc (Exact.instance parse)); exact Hne|].
    simpl. apply Qc_is_canon. reflexivity. }
  exists pA, pB. rewrite settle_run. unfold paid_of.
  rewrite HA, HB. simpl in *. rewrite Htot. repeat split; reflexivity.
Qed.

Lemma X10_paid_witness :
  "A" <> "B" /\
  forallb (fun r => unparseable r || payer_known ["A"; "B"] r)
          (@outsider_involved Qc exact) = true /\
  exists pA pB,
    paid_of (settle ["A"; "B"] EXCHANGE_RATE (@outsider_involved Qc exact)) "A"
      = Ok pA /\
    paid_of (settle ["A"; "B"] EXCHANGE_RATE (@outsider_involved Qc exact)) "B"
      = Ok pB /\
    pA + pB = total_twd (settle ["A"; "B"] EXCHANGE_RATE (@outsider_involved Qc exact)).
Proof.
  split; [discriminate|]. split; [reflexivity|].
  apply (X10_paid_adds_up_to_total Exact.parse_decimal "A" "B");
    [discriminate | reflexivity].
Defined.

End ExactSumTheorems.

(** ** The suggestion, in exact arithmetic *)

Ltac exact_ops :=
  unfold fabs, fltb, fleb, of_Z, to_int, Exact.instance; cbv beta iota.

Section ExactAdvice.
Variable parse : string -> option Qc.
Local Open Scope Qc_scope.

Lemma exact_trunc_bounds (q : Qc) :
  Qc_of_Z 0 <= q ->
  exists n, Exact.trunc q = Ok n /\ Qc_of_Z n <= q /\ q < Qc_of_Z (n + 1).
Proof.
  intros H0. unfold Exact.trunc. eexists. split; [reflexivity|].
  destruct q as [[num den] Hc]. cbn [this Qnum Qden].
  assert (Hnum : (0 <= num)%Z).
  { unfold Qcle, Qle in H0. simpl in H0. lia. }
  rewrite Z.quot_div_nonneg by lia.
  pose proof (Z.mul_div_le num (Z.pos den) ltac:(lia)) as Hlo.
  pose proof (Z.mul_succ_div_gt num (Z.pos den) ltac:(lia)) as Hhi.
  split.
  - unfold Qcle, Qc_of_Z. cbn [this]. unfold Qle. simpl. lia.
  - unfold Qclt, Qc_of_Z. cbn [this]. unfold Qlt. simpl. lia.
Qed.

Lemma exact_opp_positive (d : Qc) : Qc_of_Z 0 < - d <-> d < Qc_of_Z 0.
Proof.
  rewrite Z2Qc_inj_0. rewrite (Qclt_minus_iff d 0).
  replace (0 + - d) with (- d) by ring. reflexivity.
Qed.

Lemma exact_positive_or_negative (d : Qc) :
  ~ Qcabs d < Qc_of_Z 1 ->
  (Qc_of_Z 0 < d /\ ~ Qc_of_Z 0 < - d) \/ (~ Qc_of_Z 0 < d /\ Qc_of_Z 0 < - d).
Proof.
  intros Habs.
  destruct (decide (Qc_of_Z 0 < d)) as [Hp|Hp];
    destruct (decide (Qc_of_Z 0 < - d)) as [Hn|Hn]; [| tauto | tauto |].
  - exfalso. apply exact_opp_positive in Hn.
    apply (Qclt_not_eq _ _ (Qclt_trans _ _ _ Hp Hn)). reflexivity.
  - exfalso. apply Habs.
    apply Qcnot_lt_le in Hp.
    assert (Hn' : ~ d < Qc_of_Z 0) by (intros H; apply Hn, exact_opp_positive, H).
    apply Qcnot_lt_le in Hn'.
    assert (d = Qc_of_Z 0) as -> by (apply Qcle_antisym; assumption).
    reflexivity.
Qed.

Lemma advise_swap (A B : string) (d : Qc) :
  @advise Qc (Exact.instance parse) [B; A] (- d) =
  @advise Qc (Exact.instance parse) [A; B] d.
Proof.
  unfold advise. exact_ops. rewrite Qcabs_opp.
  destruct (bool_decide (Qcabs d < Qc_of_Z 1)) eqn:E; [reflexivity|].
  apply bool_decide_eq_false in E.
  destruct (exact_positive_or_negative d E) as [[Hp Hn]|[Hp Hn]].
  - rewrite (bool_decide_eq_true_2 _ Hp), (bool_decide_eq_false_2 _ Hn).
    reflexivity.
  - rewrite (bool_decide_eq_false_2 _ Hp), (bool_decide_eq_true_2 _ Hn).
    reflexivity.
Qed.

Lemma init_stats_swap (A B : string) :
  @init_stats Qc (Exact.instance parse) [A; B]
  = @init_stats Qc (Exact.instance parse) [B; A].
Proof.
  unfold init_stats. simpl. destruct (decide (A = B)) as [->|H]; [reflexivity|].
  apply insert_insert_ne. congruence.
Qed.

(** X11: in exact arithmetic and with only participants named, the
    suggestion does not depend on which participant is listed first: the
    same person is asked to pay the other the same amount. *)
Theorem X11_suggestion_ignores_listing_order
    (A B : string) (rate : Qc) (df : list (row Qc)) :
  A <> B ->
  forallb (fun r => @unparseable Qc (Exact.instance parse) r
                    || names_known [A; B] r) df = true ->
  @suggestion Qc (Exact.instance parse) [B; A] rate df =
  @suggestion Qc (Exact.instance parse) [A; B] rate df.
Proof.
  intros Hne Hdf. unfold suggestion, diff_of. cbn [user_at lookup list_lookup].
  rewrite !settle_run. unfold init_acc. rewrite (init_stats_swap B A).
  destruct (known_rows_keep_balance parse A B Hne rate df
              (@init_acc Qc (Exact.instance parse) [A; B]))
    as (pA & fA & pB & fB & [HA HB] & Hsum & _); [exact Hdf| |].
  { exists (Qc_of_Z 0), (Qc_of_Z 0), (Qc_of_Z 0), (Qc_of_Z 0).
    split; [apply (@tallies_init Qc (Exact.instance parse)); exact Hne|].
    split; [reflexivity|]. simpl. apply Qc_is_canon. reflexivity. }
  unfold init_acc in HA, HB. unfold balance. rewrite HA, HB. simpl in *.
  replace (pB - fB) with (- (pA - fA)).
  - apply advise_swap.
  - replace pA with (fA + fB - pB) by (rewrite <- Hsum; ring). ring.
Qed.

(** X12: in exact arithmetic, a transfer that is suggested is never NT$ 0:
    the amount shown is the whole part of [abs(diff)], at least 1, and the
    debtor is the second participant exactly when [diff] is positive. *)
Theorem X12_suggested_transfer_at_least_one
    (A B : string) (d : Qc) (debtor creditor : string) (n : Z) :
  @advise Qc (Exact.instance parse) [A; B] d = Ok (ShouldPay debtor creditor n) ->
  (1 <= n)%Z /\
  Qc_of_Z n <= Qcabs d /\ Qcabs d < Qc_of_Z (n + 1) /\
  ((Qc_of_Z 0 < d /\ debtor = B /\ creditor = A) \/
   (d < Qc_of_Z 0 /\ debtor = A /\ creditor = B)).
Proof.
  unfold advise. exact_ops. cbn [user_at lookup list_lookup].
  destruct (bool_decide (Qcabs d < Qc_of_Z 1)) eqn:E; [discriminate|].
  apply bool_decide_eq_false in E.
  destruct (exact_trunc_bounds (Qcabs d)) as (m & Hm & Hlo & Hhi).
  { apply Qcabs_nonneg. }
  rewrite Hm.
  assert (H1 : (1 <= m)%Z).
  { apply Qcnot_lt_le in E.
    pose proof (Qcle_lt_trans _ _ _ E Hhi) as H.
    apply Z2Qc_inj_lt in H. lia. }
  destruct (exact_positive_or_negative d E) as [[Hp Hn]|[Hp Hn]].
  - rewrite (bool_decide_eq_true_2 _ Hp). intros [= <- <- <-].
    repeat split; try assumption. left. repeat split. exact Hp.
  - rewrite (bool_decide_eq_false_2 _ Hp). intros [= <- <- <-].
    repeat split; try assumption. right. repeat split.
    apply exact_opp_positive. exact Hn.
Qed.

End ExactAdvice.

Lemma X11_listing_order_witness :
  "A" <> "B" /\
  forallb (fun r => unparseable r || names_known ["A"; "B"] r)
          (@scenario_ledger Qc exact) = true /\
  suggestion ["B"; "A"] EXCHANGE_RATE (@scenario_ledger Qc exact) =
  suggestion ["A"; "B"] EXCHANGE_RATE (@scenario_ledger Qc exact).
Proof.
  split; [discriminate|]. split; [reflexivity|].
  apply (X11_suggestion_ignores_listing_order Exact.parse_decimal "A" "B");
    [discriminate | reflexivity].
Defined.

Lemma X12_suggested_transfer_witness :
  advise ["A"; "B"] (Qc_of_Z (-585) / Qc_of_Z 4)%Qc = Ok (ShouldPay "A" "B" 146) /\
  (1 <= 146)%Z /\
  (Qc_of_Z 146 <= Qcabs (Qc_of_Z (-585) / Qc_of_Z 4))%Qc /\
  (Qcabs (Qc_of_Z (-585) / Qc_of_Z 4) < Qc_of_Z (146 + 1))%Qc /\
  ((Qc_of_Z 0 < Qc_of_Z (-585) / Qc_of_Z 4 /\ "A" = "B" /\ "B" = "A")%Qc \/
   (Qc_of_Z (-585) / Qc_of_Z 4 < Qc_of_Z 0 /\ "A" = "A" /\ "B" = "B")%Qc).
Proof.
  split; [reflexivity|].
  apply (X12_suggested_transfer_at_least_one Exact.parse_decimal "A" "B").
  reflexivity.
Defined.

(** ** Handlers: what they leave alone, and sessions *)

Section Sessions.
Context {F : Type} {PF : PyFloat F}.

Lemma refresh_sheet (e : env F) (w : world F) :
  sheet (fst (refresh e w)) = sheet w /\
  last_sync (fst (refresh e w)) = last_sync w.
Proof.
  destruct (fltb (elapsed e w) (of_Z 30)) eqn:E.
  - rewrite (refresh_rejected e w E). split; reflexivity.
  - rewrite (refresh_accepted e w E). split; reflexivity.
Qed.

Lemma submit_cases (e : env F) (f : form F) (w : world F) :
  (written (Submit e f) = [] /\ fst (submit e f w) = w) \/
  (written (Submit e f) = [new_row f] /\
   submit e f w =
   (mk_world (pd_concat (sheet w) [new_row f]) None (hms e)
             (last_sync_time w) (last_sync_display w),
    Ok (Success (f_item f)))).
Proof.
  unfold written.
  destruct (incomplete f) eqn:Hi.
  { left. rewrite (submit_incomplete e f w Hi). split; reflexivity. }
  destruct (read_ok e) eqn:Hr.
  2:{ left. rewrite (submit_read_fails e f w Hi Hr). split; reflexivity. }
  destruct (update_ok e) eqn:Hu.
  2:{ left. rewrite (submit_write_fails e f w Hi Hr Hu). split; reflexivity. }
  right. split; [reflexivity|]. apply submit_written; assumption.
Qed.

(** X16: the refresh button never writes to the sheet and never touches the
    time shown as last update; the form never touches the clock of the
    refresh cooldown, so recording an expense does not restart the wait; and
    a cached or fresh read of the data changes nothing but the cache. *)
Theorem X16_handlers_leave_the_rest_alone :
  (forall (e : env F) (w : world F),
      sheet (fst (refresh e w)) = sheet w /\
      last_sync (fst (refresh e w)) = last_sync w) /\
  (forall (e : env F) (f : form F) (w : world F),
      last_sync_time (fst (submit e f w)) = last_sync_time w /\
      last_sync_display (fst (submit e f w)) = last_sync_display w) /\
  (forall (e : env F) (w : world F),
      sheet (fst (get_data e w)) = sheet w /\
      last_sync (fst (get_data e w)) = last_sync w /\
      last_sync_time (fst (get_data e w)) = last_sync_time w /\
      last_sync_display (fst (get_data e w)) = last_sync_display w).
Proof.
  split; [exact refresh_sheet|]. split.
  - intros e f w. destruct (submit_cases e f w) as [[_ H]|[_ H]]; rewrite H;
      split; reflexivity.
  - intros e w. unfold get_data, conn_read.
    destruct (cache w) as [[t v]|];
      [destruct (fltb (fsub (now e) t) (of_Z 30)); [repeat split; reflexivity|]|];
      destruct (read_ok e); try (repeat split; reflexivity);
      destruct (clean (sheet w)); repeat split; reflexivity.
Qed.

Lemma new_row_six_columns (f : form F) : six_columns (new_row f) = true.
Proof. reflexivity. Qed.

Lemma step_appends (w : world F) (ev : event) :
  forallb six_columns (sheet w) = true ->
  sheet (step w ev) = (sheet w ++ written ev)%list /\
  forallb six_columns (sheet (step w ev)) = true.
Proof.
  intros H6. destruct ev as [e|e f].
  - cbn [step written]. rewrite (proj1 (refresh_sheet e w)), app_nil_r.
    split; [reflexivity | exact H6].
  - cbn [step]. destruct (submit_cases e f w) as [[Hw H]|[Hw H]]; rewrite Hw, H.
    + rewrite app_nil_r. split; [reflexivity | exact H6].
    + cbn [fst sheet]. rewrite pd_concat_new_row.
      rewrite (map_fill_blanks_six_columns _ H6). split; [reflexivity|].
      rewrite forallb_app, H6. reflexivity.
Qed.

(** X13: over any session of presses and submissions, on a sheet whose rows
    have the six columns, the sheet only grows: the rows that were there stay
    first, unchanged and in their order, followed by one row for each form
    that was complete and met a readable, writable sheet, in the order of
    submission; nothing else is ever written or removed. *)
Theorem X13_sessions_only_append (evs : list event) (w : world F) :
  forallb six_columns (sheet w) = true ->
  sheet (run evs w) = (sheet w ++ List.concat (map written evs))%list /\
  forallb six_columns (sheet (run evs w)) = true.
Proof.
  revert w. induction evs as [|ev evs IH]; intros w H6.
  - cbn. rewrite app_nil_r. split; [reflexivity | exact H6].
  - destruct (step_appends w ev H6) as [Hs H6'].
    destruct (IH (step w ev) H6') as [IHs IH6].
    change (run (ev :: evs) w) with (run evs (step w ev)).
    split; [|exact IH6].
    rewrite IHs, Hs. cbn [map List.concat]. rewrite <- app_assoc. reflexivity.
Qed.

Lemma clean_after_append (s df : list (row F)) (f : form F) :
  isnan (f_amount f) = false ->
  clean s = Ok df ->
  clean (s ++ [new_row f])%list = Ok (df ++ [strip_payer (new_row f)])%list.
Proof.
  intros Hnan. rewrite !clean_closed_form.
  destruct (forallb has_payer_amount s) eqn:Hs; [|discriminate].
  intros [= <-]. rewrite forallb_app, Hs. cbn [forallb andb].
  change (has_payer_amount (new_row f)) with true. cbn [andb].
  rewrite List.filter_app, map_app. do 2 f_equal.
  cbn [List.filter]. unfold notna_payer_amount at 1. cbn [new_row Payer Amount].
  cbn [isna_txt isna_num negb andb]. rewrite Hnan. reflexivity.
Qed.

(** X14: after a form is recorded, the new item shows up at once: whatever
    the time, the next read of the data fetches the sheet and returns the
    rows it returned before followed by the new row, and the list tab shows
    the new row first. *)
Theorem X14_new_item_shows_up_at_once
    (e : env F) (f : form F) (w : world F) (df : list (row F)) :
  incomplete f = false -> read_ok e = true -> update_ok e = true ->
  forallb six_columns (sheet w) = true ->
  isnan (f_amount f) = false ->
  clean (sheet w) = Ok df ->
  forall e' : env F, read_ok e' = true ->
    snd (get_data e' (fst (submit e f w)))
      = Ok (df ++ [strip_payer (new_row f)])%list /\
    tab2 (df ++ [strip_payer (new_row f)])%list
      = Table (strip_payer (new_row f) :: rev df).
Proof.
  intros Hi Hr Hu H6 Hnan Hc e' Hr'. split.
  - rewrite (submit_written e f w Hi Hr Hu). cbn [fst].
    unfold get_data, conn_read. cbn [cache sheet]. rewrite Hr'.
    rewrite pd_concat_new_row, (map_fill_blanks_six_columns _ H6).
    rewrite (clean_after_append _ _ f Hnan Hc). reflexivity.
  - unfold tab2. destruct (df ++ [strip_payer (new_row f)])%list eqn:E.
    + destruct df; discriminate.
    + rewrite <- E. rewrite rev_app_distr. reflexivity.
Qed.



End Sessions.

Lemma X13_sessions_witness :
  forallb six_columns (sheet morning) = true /\
  sheet (run sample_session morning)
    = (sheet morning ++ List.concat (map written sample_session))%list /\
  forallb six_columns (sheet (run sample_session morning)) = true.
Proof.
  split; [reflexivity|].
  apply (X13_sessions_only_append sample_session morning). reflexivity.
Defined.

Lemma X14_new_item_witness :
  incomplete ramen_form = false /\
  read_ok (at_time 1000040%float true true) = true /\
  update_ok (at_time 1000040%float true true) = true /\
  forallb six_columns (sheet morning) = true /\
  isnan (f_amount ramen_form) = false /\
  clean (sheet morning) = Ok [lunch] /\
  forall e' : env float, read_ok e' = true ->
    snd (get_data e' (fst (submit (at_time 1000040%float true true)
                                  ramen_form morning)))
      = Ok ([lunch] ++ [strip_payer (new_row ramen_form)])%list /\
    tab2 ([lunch] ++ [strip_payer (new_row ramen_form)])%list
      = Table (strip_payer (new_row ramen_form) :: rev [lunch]).
Proof.
  repeat (split; [reflexivity|]).
  apply (X14_new_item_shows_up_at_once (at_time 1000040%float true true)
           ramen_form morning [lunch]); reflexivity.
Defined.


(** ** TAB 3 as a whole *)

Section ExactRender.
Variable parse : string -> option Qc.




End ExactRender.


(** On doubles the summary tab can fail: two amounts of 2^1023 overflow
    [paid], and [int] of an infinity raises. *)
Example summary_overflows_on_doubles :
  clean overflowing_ledger = Ok overflowing_ledger /\
  tab3 USERS EXCHANGE_RATE overflowing_ledger = Raise OverflowError.
Proof. split; vm_compute; reflexivity. Qed.

(** With a single participant the second name of the message is missing. *)
Example one_participant_index_error :
  tab3 ["Christen"] EXCHANGE_RATE [lunch] = Raise IndexError.
Proof. vm_compute. reflexivity. Qed.

(** ** Rows the form writes *)

Section FormRows.
Context {F : Type} {PF : PyFloat F}.

Lemma form_row_recognised (users : list string) (f : form F) :
  forallb plain_name users = true ->
  selected users f = true ->
  unparseable (new_row f) = false /\
  names_known users (new_row f) = true /\
  strip_payer (new_row f) = new_row f.
Proof.
  intros Hplain Hsel. unfold selected in Hsel.
  apply andb_prop in Hsel as [Hsel Hinv]. apply andb_prop in Hsel as [Hpay Hne].
  apply negb_true_iff, bool_decide_eq_false in Hne.
  assert (Hp : forall n, n ∈ users -> plain_name n = true).
  { intros n Hn. apply (proj1 (forallb_forall _ _) Hplain).
    apply list_elem_of_In. exact Hn. }
  assert (Hjoin : inv_list (Txt (PyStr.join ", " (f_involved f))) = f_involved f).
  { apply inv_list_join; [exact Hne|]. apply forallb_forall. intros n Hn.
    apply Hp. pose proof (proj1 (forallb_forall _ _) Hinv n Hn) as H.
    apply bool_decide_eq_true in H. exact H. }
  split; [reflexivity|]. split.
  - unfold names_known. cbn [new_row Payer Involved py_str].
    rewrite Hpay, Hjoin. exact Hinv.
  - unfold strip_payer. cbn [new_row Payer Date Item Amount Currency Involved py_str].
    apply bool_decide_eq_true in Hpay. pose proof (Hp _ Hpay) as H.
    apply andb_prop in H as [_ H]. apply bool_decide_eq_true in H.
    rewrite H. reflexivity.
Qed.

(** X2: a row the form writes is one the loop reads in full: when the names
    of the participants have no comma and no blanks around them, and the
    payer and a non-empty selection come from the list, the row is not
    skipped, its payer and every Involved name are recognised, and the
    cleaning of [get_data] leaves it as it is. *)
Theorem X2_form_rows_are_recognised (users : list string) (f : form F) :
  forallb plain_name users = true ->
  selected users f = true ->
  unparseable (new_row f) = false /\
  names_known users (new_row f) = true /\
  strip_payer (new_row f) = new_row f.
Proof. exact (form_row_recognised users f). Qed.

End FormRows.

Lemma X2_form_rows_witness :
  forallb plain_name USERS = true /\
  selected USERS ramen_form = true /\
  unparseable (new_row ramen_form) = false /\
  names_known USERS (new_row ramen_form) = true /\
  strip_payer (new_row ramen_form) = new_row ramen_form.
Proof.
  split; [reflexivity|]. split; [reflexivity|].
  apply (X2_form_rows_are_recognised USERS ramen_form); reflexivity.
Defined.

Section FormLedger.
Variable parse : string -> option Qc.
Local Open Scope Qc_scope.

(** X18: a ledger filled in through the form alone always balances: in exact
    arithmetic, for two distinct participants with plain names and any
    sequence of forms whose payer and non-empty selection come from the two,
    the cleaning keeps every row and the two balances sum to zero. *)
Theorem X18_form_filled_ledger_balances
    (A B : string) (rate : Qc) (forms : list (form Qc)) :
  A <> B ->
  forallb plain_name [A; B] = true ->
  forallb (@selected Qc [A; B]) forms = true ->
  @clean Qc (Exact.instance parse) (map new_row forms) = Ok (map new_row forms) /\
  @balance_sum Qc (Exact.instance parse)
     (@settle Qc (Exact.instance parse) [A; B] rate (map new_row forms)) A B
  = Ok 0.
Proof.
  intros Hne Hplain Hsel.
  assert (Hrows : forall f, In f forms ->
            @unparseable Qc (Exact.instance parse) (new_row f) = false /\
            names_known [A; B] (new_row f) = true /\
            @strip_payer Qc (new_row f) = new_row f).
  { intros f Hf. apply (@form_row_recognised Qc (Exact.instance parse));
      [exact Hplain|]. exact (proj1 (forallb_forall _ _) Hsel f Hf). }
  split.
  - apply clean_of_cleaned. apply forallb_forall. intros r Hr.
    apply in_map_iff in Hr as (f & <- & Hf).
    destruct (Hrows f Hf) as (_ & _ & Hs).
    unfold cleaned. cbn [new_row Payer Amount isna_num].
    unfold strip_payer in Hs. cbn [new_row Payer py_str] in Hs.
    injection Hs as Hs. rewrite (bool_decide_eq_true_2 _ Hs). reflexivity.
  - destruct (known_rows_keep_balance parse A B Hne rate (map new_row forms)
                (@init_acc Qc (Exact.instance parse) [A; B]))
      as (pA & fA & pB & fB & [HA HB] & Hsum & _).
    { apply forallb_forall. intros r Hr.
      apply in_map_iff in Hr as (f & <- & Hf).
      destruct (Hrows f Hf) as (_ & Hk & _). rewrite Hk. apply orb_true_r. }
    { exists (Qc_of_Z 0), (Qc_of_Z 0), (Qc_of_Z 0), (Qc_of_Z 0).
      split; [apply (@tallies_init Qc (Exact.instance parse)); exact Hne|].
      split; [reflexivity|]. simpl. apply Qc_is_canon. reflexivity. }
    rewrite settle_run. unfold balance_sum, balance. rewrite HA, HB. simpl in *.
    f_equal. replace pA with (fA + fB - pB) by (rewrite <- Hsum; ring). ring.
Qed.

End FormLedger.

Lemma X18_form_filled_ledger_witness :
  "A" <> "B" /\
  forallb plain_name ["A"; "B"] = true /\
  forallb (selected ["A"; "B"]) (@two_forms Qc exact) = true /\
  clean (map new_row (@two_forms Qc exact)) = Ok (map new_row (@two_forms Qc exact)) /\
  balance_sum (settle ["A"; "B"] EXCHANGE_RATE (map new_row (@two_forms Qc exact)))
              "A" "B" = Ok 0%Qc.
Proof.
  split; [discriminate|]. split; [reflexivity|]. split; [reflexivity|].
  apply (X18_form_filled_ledger_balances Exact.parse_decimal "A" "B");
    [discriminate | reflexivity | reflexivity].
Defined.

(** ** The order of the rows, in exact arithmetic *)

Section RowOrder.
Variable parse : string -> option Qc.
Variable rate : Qc.
Local Open Scope Qc_scope.

Lemma credit_is_bump (n : string) (x : Qc) (a : acc Qc) :
  @credit_paid Qc (Exact.instance parse) n x a
  = @bump Qc (Exact.instance parse) n x (Qc_of_Z 0) a.
Proof.
  unfold credit_paid, bump. destruct (user_stats a !! n) as [[p f]|]; [|reflexivity].
  cbn [paid fair_share]. do 3 f_equal. simpl. rewrite Z2Qc_inj_0. ring.
Qed.

Lemma charge_is_bump (n : string) (x : Qc) (a : acc Qc) :
  @charge_share Qc (Exact.instance parse) n x a
  = @bump Qc (Exact.instance parse) n (Qc_of_Z 0) x a.
Proof.
  unfold charge_share, bump. destruct (user_stats a !! n) as [[p f]|]; [|reflexivity].
  cbn [paid fair_share]. do 3 f_equal. simpl. rewrite Z2Qc_inj_0. ring.
Qed.

Lemma bump_bump (n m : string) (dp df ep ef : Qc) (a : acc Qc) :
  @bump Qc (Exact.instance parse) n dp df (@bump Qc (Exact.instance parse) m ep ef a)
  = @bump Qc (Exact.instance parse) m ep ef (@bump Qc (Exact.instance parse) n dp df a).
Proof.
  unfold bump. destruct (decide (n = m)) as [->|Hne].
  - destruct (user_stats a !! m) as [[p f]|] eqn:Em.
    + cbn [user_stats total_twd]. rewrite !lookup_insert_eq.
      cbn [user_stats total_twd paid fair_share]. rewrite !insert_insert_eq.
      do 3 f_equal; simpl; ring.
    + rewrite Em. reflexivity.
  - destruct (user_stats a !! m) as [[p f]|] eqn:Em;
      destruct (user_stats a !! n) as [[q g]|] eqn:En;
      cbn [user_stats total_twd];
      rewrite ?lookup_insert_ne by congruence;
      rewrite ?Em, ?En; cbn [user_stats total_twd paid fair_share];
      try reflexivity.
    rewrite insert_insert_ne by congruence. reflexivity.
Qed.

Lemma updates_commute (u v : @update Qc) (a : acc Qc) :
  @apply_update Qc (Exact.instance parse) (@apply_update Qc (Exact.instance parse) a u) v
  = @apply_update Qc (Exact.instance parse) (@apply_update Qc (Exact.instance parse) a v) u.
Proof.
  destruct u as [x|n dp df], v as [y|m ep ef]; cbn [apply_update].
  - unfold add_total. cbn [user_stats total_twd]. f_equal. simpl. ring.
  - unfold add_total, bump. cbn [user_stats total_twd].
    destruct (user_stats a !! m); reflexivity.
  - unfold add_total, bump. cbn [user_stats total_twd].
    destruct (user_stats a !! n); reflexivity.
  - symmetry. apply bump_bump.
Qed.

Lemma update_past_updates (u : @update Qc) (vs : list (@update Qc)) (a : acc Qc) :
  fold_left (@apply_update Qc (Exact.instance parse)) vs
            (@apply_update Qc (Exact.instance parse) a u)
  = @apply_update Qc (Exact.instance parse)
      (fold_left (@apply_update Qc (Exact.instance parse)) vs a) u.
Proof.
  revert a. induction vs as [|v vs IH]; intros a; [reflexivity|].
  cbn [fold_left]. rewrite updates_commute. apply IH.
Qed.

Lemma updates_past_updates (us vs : list (@update Qc)) (a : acc Qc) :
  fold_left (@apply_update Qc (Exact.instance parse)) vs
            (fold_left (@apply_update Qc (Exact.instance parse)) us a)
  = fold_left (@apply_update Qc (Exact.instance parse)) us
              (fold_left (@apply_update Qc (Exact.instance parse)) vs a).
Proof.
  revert a. induction us as [|u us IH]; intros a; [reflexivity|].
  cbn [fold_left]. rewrite IH. rewrite update_past_updates. reflexivity.
Qed.

Lemma fold_charge_updates (share : Qc) (names : list string) (a : acc Qc) :
  fold_left (fun a n => @charge_share Qc (Exact.instance parse) n share a) names a
  = fold_left (@apply_update Qc (Exact.instance parse))
              (map (fun n => Bump n (Qc_of_Z 0) share) names) a.
Proof.
  revert a. induction names as [|n names IH]; intros a; [reflexivity|].
  cbn [fold_left map apply_update]. rewrite IH, charge_is_bump. reflexivity.
Qed.

Lemma row_is_its_updates (r : row Qc) (a : acc Qc) :
  try_continue (@row_body Qc (Exact.instance parse) rate r) a
  = fold_left (@apply_update Qc (Exact.instance parse))
              (@row_updates Qc (Exact.instance parse) rate r) a.
Proof.
  unfold try_continue, row_updates, amt_twd_of. rewrite row_body_run.
  unfold row_run.
  destruct (Amount r) as [c|]; [|reflexivity].
  destruct (py_float c) as [amt|]; [|reflexivity].
  destruct (Currency r) as [cur|]; [|reflexivity]. cbv zeta.
  destruct (Payer r) as [p|]; [|reflexivity].
  destruct (Involved r) as [i|].
  2:{ cbn [fst fold_left apply_update]. apply credit_is_bump. }
  destruct (py_div _ _) as [share|].
  2:{ cbn [fst fold_left apply_update]. apply credit_is_bump. }
  cbn [fst fold_left apply_update]. rewrite fold_charge_updates, credit_is_bump.
  reflexivity.
Qed.

Lemma rows_commute (r1 r2 : row Qc) (a : acc Qc) :
  try_continue (@row_body Qc (Exact.instance parse) rate r2)
    (try_continue (@row_body Qc (Exact.instance parse) rate r1) a)
  = try_continue (@row_body Qc (Exact.instance parse) rate r1)
      (try_continue (@row_body Qc (Exact.instance parse) rate r2) a).
Proof. rewrite !row_is_its_updates. apply updates_past_updates. Qed.

Lemma settle_loop_permutation (df df' : list (row Qc)) :
  Permutation df df' ->
  forall a, @settle_loop Qc (Exact.instance parse) rate df a
            = @settle_loop Qc (Exact.instance parse) rate df' a.
Proof.
  unfold settle_loop.
  induction 1 as [|r l l' _ IH|r1 r2 l|l l' l'' _ IH1 _ IH2]; intros a.
  - reflexivity.
  - cbn [fold_left]. apply IH.
  - cbn [fold_left]. rewrite rows_commute. reflexivity.
  - rewrite IH1. apply IH2.
Qed.

(** X19: in exact arithmetic the summary does not depend on the order of the
    rows of the sheet: any rearrangement of the ledger gives the same paid and
    fair-share figures for every participant and the same total, rows that
    are skipped or raise part-way included. *)
Theorem X19_row_order_does_not_matter
    (users : list string) (df df' : list (row Qc)) :
  Permutation df df' ->
  @settle Qc (Exact.instance parse) users rate df
  = @settle Qc (Exact.instance parse) users rate df'.
Proof.
  intros H. rewrite !settle_run. apply settle_loop_permutation. exact H.
Qed.

End RowOrder.

Lemma X19_row_order_witness :
  Permutation (@scenario_ledger Qc exact) (rev (@scenario_ledger Qc exact)) /\
  settle ["A"; "B"] EXCHANGE_RATE (@scenario_ledger Qc exact)
  = settle ["A"; "B"] EXCHANGE_RATE (rev (@scenario_ledger Qc exact)).
Proof.
  split; [exact (perm_swap _ _ [])|].
  apply (X19_row_order_does_not_matter Exact.parse_decimal).
  exact (perm_swap _ _ []).
Defined.

(** On doubles the order shows: the small amounts are lost when they are
    added one by one to the large one, and kept when they are added up
    first. *)
Example row_order_matters_on_doubles :
  total_twd (settle USERS EXCHANGE_RATE large_then_small)
    = 100000000000000000%float /\
  total_twd (settle USERS EXCHANGE_RATE (rev large_then_small))
    = 100000000000000016%float.
Proof. split; vm_compute; reflexivity. Qed.

(** ** The figures of the summary tab, in exact arithmetic *)

Section ExactFigures.
Variable parse : string -> option Qc.
Local Open Scope Qc_scope.

Lemma exact_trunc_opp (q : Qc) (z : Z) :
  Exact.trunc q = Ok z -> Exact.trunc (- q) = Ok (- z)%Z.
Proof.
  unfold Exact.trunc. intros [= <-]. f_equal.
  destruct q as [[n d] Hc]. unfold Qcopp, Q2Qc. cbn [this].
  rewrite Qred_opp, Hc. cbn [Qopp Qnum Qden].
  apply Z.quot_opp_l. discriminate.
Qed.

Lemma exact_trunc_abs (q : Qc) (z : Z) :
  Exact.trunc q = Ok z -> Exact.trunc (Qcabs q) = Ok (Z.abs z).
Proof.
  unfold Exact.trunc. intros [= <-]. f_equal.
  destruct q as [[n d] Hc]. unfold Qcabs. cbn [this Qabs.Qabs Qnum Qden].
  rewrite <- (Z.quot_abs n (Z.pos d)) by discriminate. reflexivity.
Qed.

(** X20: in exact arithmetic and with only participants named, the figures
    of the summary tab agree with each other: the two net amounts shown are
    opposite numbers, and a suggested transfer is for exactly their
    magnitude. *)
Theorem X20_summary_figures_agree
    (A B : string) (rate : Qc) (df : list (row Qc)) :
  A <> B -> df <> [] ->
  forallb (fun r => @unparseable Qc (Exact.instance parse) r
                    || names_known [A; B] r) df = true ->
  exists mA mB adv t,
    @tab3 Qc (Exact.instance parse) [A; B] rate df
      = Ok (Summary [mA; mB] adv t) /\
    m_user mA = A /\ m_user mB = B /\
    m_delta mB = (- m_delta mA)%Z /\
    (adv = AllSquare \/
     exists debtor creditor,
       adv = ShouldPay debtor creditor (Z.abs (m_delta mA))).
Proof.
  intros Hne Hdf Hk. destruct df as [|r df]; [congruence|].
  destruct (known_rows_keep_balance parse A B Hne rate (r :: df)
              (@init_acc Qc (Exact.instance parse) [A; B]) Hk)
    as (pA & fA & pB & fB & [HA HB] & Hsum & _).
  { exists (Qc_of_Z 0), (Qc_of_Z 0), (Qc_of_Z 0), (Qc_of_Z 0).
    split; [apply (@tallies_init Qc (Exact.instance parse)); exact Hne|].
    split; [reflexivity|]. simpl. apply Qc_is_canon. reflexivity. }
  rewrite <- settle_run in HA, HB. simpl in Hsum.
  assert (Hopp : pB - fB = - (pA - fA)).
  { replace pA with (fA + fB - pB) by (rewrite <- Hsum; ring). ring. }
  unfold tab3. cbv zeta. cbn [show_metrics]. unfold show_metric, diff_of, balance.
  cbn [user_at lookup list_lookup]. rewrite HA, HB. cbn [paid fair_share].
  unfold fsub. exact_ops. rewrite Hopp.
  destruct (Exact.trunc (pA - fA)) as [dA|] eqn:EdA; [|discriminate].
  rewrite (exact_trunc_opp _ _ EdA).
  destruct (Exact.trunc pA) as [vA|] eqn:EvA; [|discriminate].
  destruct (Exact.trunc pB) as [vB|] eqn:EvB; [|discriminate].
  unfold mbind, result_bind, mret, result_ret. cbv beta iota.
  unfold advise. exact_ops. cbn [user_at lookup list_lookup].
  rewrite (exact_trunc_abs _ _ EdA).
  destruct (Exact.trunc (total_twd _)) as [t|] eqn:Et; [|discriminate].
  destruct (bool_decide (Qcabs (pA - fA) < Qc_of_Z 1)).
  - do 4 eexists. split; [reflexivity|]. cbn [m_user m_delta].
    repeat split. left. reflexivity.
  - destruct (bool_decide (Qc_of_Z 0 < pA - fA)).
    + do 4 eexists. split; [reflexivity|]. cbn [m_user m_delta].
      repeat split. right. eauto.
    + do 4 eexists. split; [reflexivity|]. cbn [m_user m_delta].
      repeat split. right. eauto.
Qed.

End ExactFigures.

Lemma X20_summary_figures_witness :
  "A" <> "B" /\
  @scenario_ledger Qc exact <> [] /\
  forallb (fun r => unparseable r || names_known ["A"; "B"] r)
          (@scenario_ledger Qc exact) = true /\
  exists mA mB adv t,
    tab3 ["A"; "B"] EXCHANGE_RATE (@scenario_ledger Qc exact)
      = Ok (Summary [mA; mB] adv t) /\
    m_user mA = "A" /\ m_user mB = "B" /\
    m_delta mB = (- m_delta mA)%Z /\
    (adv = AllSquare \/
     exists debtor creditor,
       adv = ShouldPay debtor creditor (Z.abs (m_delta mA))).
Proof.
  split; [discriminate|]. split; [discriminate|]. split; [reflexivity|].
  apply (X20_summary_figures_agree Exact.parse_decimal "A" "B");
    [discriminate | discriminate | reflexivity].
Defined.
